(** * Stripe Terminal P400 requests: a shallow embedding of
      [pkg/terminal/p400/stripe_requests.go] and its verified properties.

    The Go file holds six operations that each call an HTTP client once.
    They are embedded here as state transformers over a [World] that records
    every call to a client and every [Body.Close()], so that request
    contents, results, resource handling and the number of calls can all be
    stated.

    Library code the file calls ([fmt.Sprintf], [strconv.Itoa],
    [url.Values], [http.Header], [json.Decoder]) is modelled in the modules
    named after the Go packages; package constants and collaborators that
    are declared elsewhere in the repository are Section variables. *)

From Stdlib Require Import ZArith Ascii String List DecimalString.
From stdpp Require Import base decidable option list gmap strings sorting.

Local Open Scope string_scope.
Local Open Scope Z_scope.

(** ** Errors

    Go's [error] interface. The only error value the file itself names is
    the package sentinel [ErrCapturePaymentIntentFailed]; every other error
    is produced by a library ([url.Parse], [http.NewRequest], the
    transport) and is carried through unchanged. *)

Inductive error : Type :=
| ErrCapturePaymentIntentFailed
| LibraryError (msg : string).

#[global] Instance error_eq_dec : EqDecision error.
Proof. solve_decision. Defined.

(** ** Package [strconv] *)

Module strconv.

(** [strconv.Itoa]: the decimal representation, with a leading minus sign
    for negative numbers. *)
Definition Itoa (i : Z) : string := NilZero.string_of_int (Z.to_int i).

End strconv.

(** ** Package [fmt] *)

Module fmt.

(** [fmt.Sprintf] restricted to string operands (a [*url.URL] operand is
    passed as its [String()]), which is all the file uses.  The verbs
    [%s] and [%v] print the next operand, [%x] and [%X] print its bytes in
    hexadecimal, [%%] prints a percent sign; a verb that does not fit a
    string, a missing operand and left-over operands are reported the way
    Go reports them.  Not modelled: the verbs [%q] and [%T] (Go prints the
    operand quoted, and its type; here they are reported as verbs that do
    not fit), and flags, widths and precisions.  The formats written in the
    file use [%s] and [%v] only. *)
Definition hexdigit (digits : string) (n : N) : ascii :=
  match String.get (N.to_nat n) digits with
  | Some c => c
  | None => "0"%char
  end.

Fixpoint hex (digits s : string) : string :=
  match s with
  | EmptyString => EmptyString
  | String c rest =>
      String (hexdigit digits (N_of_ascii c / 16))
             (String (hexdigit digits (N_of_ascii c mod 16)) (hex digits rest))
  end.

Fixpoint extra (args : list string) : string :=
  match args with
  | [] => ""
  | [a] => "string=" ++ a
  | a :: rest => "string=" ++ a ++ ", " ++ extra rest
  end.

Definition trailing (args : list string) : string :=
  match args with
  | [] => ""
  | _ => "%!(EXTRA " ++ extra args ++ ")"
  end.

Fixpoint Sprintf (format : string) (args : list string) : string :=
  match format with
  | EmptyString => trailing args
  | String "%" EmptyString => "%!(NOVERB)" ++ trailing args
  | String "%" (String "%" rest) => "%" ++ Sprintf rest args
  | String "%" (String verb rest) =>
      match args with
      | [] => "%!" ++ String verb "(MISSING)" ++ Sprintf rest []
      | a :: args' =>
          if bool_decide (verb = "s"%char ∨ verb = "v"%char)
          then a ++ Sprintf rest args'
          else if bool_decide (verb = "x"%char)
          then hex "0123456789abcdef" a ++ Sprintf rest args'
          else if bool_decide (verb = "X"%char)
          then hex "0123456789ABCDEF" a ++ Sprintf rest args'
          else "%!" ++ String verb ("(string=" ++ a ++ ")") ++ Sprintf rest args'
      end
  | String c rest => String c (Sprintf rest args)
  end.

End fmt.

(** ** Package [net/url] *)

Module url.

(** [url.Values] is [map[string][]string]. *)
Abbreviation Values := (gmap string (list string)).

(** [Values.Set] replaces whatever the key held by the single value. *)
Definition Values_Set (key value : string) (v : Values) : Values :=
  <[key := [value]]> v.

Definition upperhex (n : N) : ascii :=
  match String.get (N.to_nat n) "0123456789ABCDEF" with
  | Some c => c
  | None => "0"%char
  end.

Definition between (lo hi c : ascii) : bool :=
  ((N_of_ascii lo <=? N_of_ascii c) && (N_of_ascii c <=? N_of_ascii hi))%N.

(** [shouldEscape(c, encodeQueryComponent)]: letters, digits and the marks
    [-_.~] pass; everything else, the reserved characters included, is
    escaped in a query component. *)
Definition shouldEscape (c : ascii) : bool :=
  if between "a" "z" c || between "A" "Z" c || between "0" "9" c then false
  else if bool_decide (c = "-" ∨ c = "_" ∨ c = "." ∨ c = "~")%char then false
  else true.

(** [url.QueryEscape]: a space becomes [+], an escaped byte becomes [%XX]. *)
Fixpoint QueryEscape (s : string) : string :=
  match s with
  | EmptyString => EmptyString
  | String c rest =>
      if shouldEscape c then
        if bool_decide (c = " "%char) then String "+" (QueryEscape rest)
        else String "%" (String (upperhex (N_of_ascii c / 16))
                        (String (upperhex (N_of_ascii c mod 16))
                                (QueryEscape rest)))
      else String c (QueryEscape rest)
  end.

(** The pairs [key=value] of one key, in the order of its values. *)
Definition pairs (kv : string * list string) : list string :=
  (λ value, QueryEscape kv.1 ++ "=" ++ QueryEscape value) <$> kv.2.

Definition key_le (a b : string * list string) : Prop := String.le a.1 b.1.

#[global] Instance key_le_dec : RelDecision key_le.
Proof. intros a b. unfold key_le. apply _. Defined.

Fixpoint join (sep : string) (l : list string) : string :=
  match l with
  | [] => ""
  | [a] => a
  | a :: rest => a ++ sep ++ join sep rest
  end.

(** [Values.Encode]: the keys are sorted, every pair is escaped, and the
    pairs are separated by [&]. *)
Definition Values_Encode (v : Values) : string :=
  join "&" (mjoin (pairs <$> merge_sort key_le (map_to_list v))).

End url.

(** ** Package [net/http] *)

Module http.

Definition MethodGet : string := "GET".
Definition MethodPost : string := "POST".
Definition StatusOK : Z := 200.

(** [http.Header] is [map[string][]string] with canonicalised keys. *)
Abbreviation Header := (gmap string (list string)).

Definition validHeaderFieldByte (c : ascii) : bool :=
  url.between "a" "z" c || url.between "A" "Z" c || url.between "0" "9" c
  || bool_decide (c ∈ list_ascii_of_string "!#$%&'*+-.^_`|~").

Fixpoint canonical (upper : bool) (s : string) : string :=
  match s with
  | EmptyString => EmptyString
  | String c rest =>
      let c' :=
        if upper && url.between "a" "z" c
        then ascii_of_N (N_of_ascii c - 32)
        else if negb upper && url.between "A" "Z" c
        then ascii_of_N (N_of_ascii c + 32)
        else c in
      String c' (canonical (bool_decide (c = "-"%char)) rest)
  end.

(** [textproto.CanonicalMIMEHeaderKey]: a key holding a byte that is not a
    token byte is left as it is. *)
Definition CanonicalMIMEHeaderKey (s : string) : string :=
  if forallb validHeaderFieldByte (list_ascii_of_string s)
  then canonical true s else s.

Definition Header_Set (key value : string) (h : Header) : Header :=
  <[CanonicalMIMEHeaderKey key := [value]]> h.

Definition Header_Get (key : string) (h : Header) : string :=
  match h !! CanonicalMIMEHeaderKey key with
  | Some (v :: _) => v
  | _ => ""
  end.

(** A parsed [*url.URL], kept as the text its [String()] method gives: the
    file never looks inside one. *)
Record URL : Type := mkURL { URL_String : string }.

(** An outgoing [*http.Request]; the body is the content of its buffer. *)
Record Request : Type := mkRequest {
  Method : string;
  RequestURL : URL;
  Header_ : Header;
  RequestBody : string;
}.

(** A response body: the bytes the platform sent and the handle under which
    this acquisition of the connection is tracked. *)
Record ReadCloser : Type := mkReadCloser {
  handle : nat;
  content : string;
}.

Record Response : Type := mkResponse {
  StatusCode : Z;
  Body : ReadCloser;
}.

End http.

(** ** Package [pkg/stripe] (a collaborator declared outside the file) *)

Module stripe.

(** Modelled from the spec: the authenticated-HTTP client, of which the file
    fills in exactly these three fields.  It authenticates every request it
    performs with its [APIKey]. *)
Record Client : Type := mkClient {
  BaseURL : option http.URL;
  APIKey : string;
  Verbose : bool;
}.

End stripe.

(** ** Package [encoding/json] *)

Module json.

(** A JSON text once scanned.  Object members keep their order and their
    duplicates, as the decoder meets them. *)
#[warnings="-register-all"]
Inductive value : Type :=
| Null
| Bool (b : bool)
| Number (literal : string)
| Str (s : string)
| Array (elements : list value)
| Object (members : list (string * value)).

(** The error of the scanner.  Go has several (a [*SyntaxError],
    [io.ErrUnexpectedEOF] on a stream that ends inside a value, [io.EOF] on
    an empty stream); the model keeps this one value for all of them. *)
Definition SyntaxError : error := LibraryError "json: syntax error".
Definition UnmarshalTypeError : error := LibraryError "json: cannot unmarshal".

(** What [Unmarshal] needs to know of a Go type: its zero value, how a JSON
    value is stored over an existing one, and which JSON values do not fit
    (they leave the target alone and are reported once decoding is done). *)
Class Unmarshaler (T : Type) : Type := {
  zero : T;
  store : value → T → T;
  misfit : value → bool;
}.

#[global] Instance string_unmarshaler : Unmarshaler string := {|
  zero := "";
  store v old := match v with Str s => s | _ => old end;
  misfit v := match v with Str _ | Null => false | _ => true end;
|}.

#[global] Instance bool_unmarshaler : Unmarshaler bool := {|
  zero := false;
  store v old := match v with Bool b => b | _ => old end;
  misfit v := match v with Bool _ | Null => false | _ => true end;
|}.

(** A slice: element [i] of the array is stored over element [i] of the old
    slice if there is one, over a zero element otherwise; [null] empties
    the slice. *)
#[global] Instance slice_unmarshaler {T} `{Unmarshaler T} : Unmarshaler (list T) := {|
  zero := [];
  store v old :=
    match v with
    | Array l => imap (λ i x, store x (default zero (old !! i))) l
    | Null => []
    | _ => old
    end;
  misfit v :=
    match v with
    | Array l => existsb misfit l
    | Null => false
    | _ => true
    end;
|}.

Definition upper (c : ascii) : ascii :=
  if url.between "a" "z" c then ascii_of_N (N_of_ascii c - 32) else c.

(** [foldName], on the UTF-8 bytes of a name: an ASCII letter becomes upper
    case, and the two runes outside ASCII that fold onto an ASCII letter
    become that letter: U+017F (long s, bytes C5 BF) becomes [S] and U+212A
    (Kelvin sign, bytes E2 84 AA) becomes [K].  Every other byte outside
    ASCII is kept: it belongs to a rune that folds onto no ASCII letter, so
    a name holding one equals no folded ASCII name, which is all that
    [is_field] asks of it. *)
Fixpoint foldName (s : string) : string :=
  match s with
  | EmptyString => EmptyString
  | String "197" (String "191" rest) => String "S" (foldName rest)
  | String "226" (String "132" (String "170" rest)) => String "K" (foldName rest)
  | String c rest => String (upper c) (foldName rest)
  end.

(** A member is stored in the field whose tag equals its key, or else
    equals it once both are folded (the tags of the file are ASCII and
    pairwise different once folded, so this picks at most one field). *)
Definition is_field (tag key : string) : bool :=
  bool_decide (foldName key = foldName tag).

(** The value of the field [tag] once all [members] have been stored, in
    their order, over [old]. *)
Definition field {T} `{Unmarshaler T} (tag : string)
    (members : list (string * value)) (old : T) : T :=
  fold_left (λ acc kv, if is_field tag kv.1 then store kv.2 acc else acc)
            members old.

(** A slice field while an object is decoded: the elements within its
    length, and the elements beyond its length that earlier members left
    in its backing array.  An array stores its element [i] over element [i]
    of the backing array if there is one, over a zero element otherwise,
    and sets the length; the empty array and [null] replace the slice by a
    fresh empty one; any other value leaves it alone. *)
Definition store_slice {T} `{Unmarshaler T} (v : value)
    (s : list T * list T) : list T * list T :=
  match v with
  | Array [] => ([], [])
  | Array l =>
      (imap (λ i x, store x (default zero ((s.1 ++ s.2)%list !! i))) l,
       drop (length l) (s.1 ++ s.2)%list)
  | Null => ([], [])
  | _ => s
  end.

(** The value of the slice field [tag] once all [members] have been stored,
    in their order, over [old], a slice with nothing beyond its length (as
    the nil slice of a zero struct is). *)
Definition slice_field {T} `{Unmarshaler T} (tag : string)
    (members : list (string * value)) (old : list T) : list T :=
  (fold_left (λ acc kv, if is_field tag kv.1 then store_slice kv.2 acc else acc)
             members (old, [])).1.

Definition field_misfit (T : Type) `{Unmarshaler T} (tag : string)
    (kv : string * value) : bool :=
  is_field tag kv.1 && misfit (T := T) kv.2.

(** [Decoder.Decode]: the next JSON value is scanned off the stream; a
    syntax error (or an empty stream) leaves the target as it was.  The
    value is then stored, and the first misfit is the error returned. *)
Definition Decode {T} `{Unmarshaler T} (scan : string → option value)
    (body : http.ReadCloser) (target : T) : T * option error :=
  match scan (http.content body) with
  | None => (target, Some SyntaxError)
  | Some v => (store v target, if misfit (T := T) v then Some UnmarshalTypeError else None)
  end.

End json.

(** * Package [p400] *)

(** ** The response shapes (lines 15-56 of the file)

    Go fields whose name is also the name of a type, or is shared by two
    structs, carry a suffix or a prefix here. *)

(** [Metadata] is an empty struct: any object fits, nothing is kept. *)
Record Metadata : Type := mkMetadata { }.

#[global] Instance Metadata_unmarshaler : json.Unmarshaler Metadata := {|
  json.zero := mkMetadata;
  json.store _ old := old;
  json.misfit v := match v with json.Object _ | json.Null => false | _ => true end;
|}.

Record Reader : Type := mkReader {
  ID : string;
  Object : string;
  DeviceSwVersion : string;
  DeviceType : string;
  IPAddress : string;
  Label : string;
  Livemode : bool;
  Location : string;
  SerialNumber : string;
  Status : string;
  Metadata_ : Metadata;
}.

#[global] Instance Reader_unmarshaler : json.Unmarshaler Reader := {|
  json.zero := mkReader "" "" "" "" "" "" false "" "" "" mkMetadata;
  json.store v old :=
    match v with
    | json.Object ms =>
        {| ID := json.field "id" ms (ID old);
           Object := json.field "object" ms (Object old);
           DeviceSwVersion := json.field "device_software_version" ms (DeviceSwVersion old);
           DeviceType := json.field "device_type" ms (DeviceType old);
           IPAddress := json.field "ip_address" ms (IPAddress old);
           Label := json.field "label" ms (Label old);
           Livemode := json.field "livemode" ms (Livemode old);
           Location := json.field "location" ms (Location old);
           SerialNumber := json.field "serial_number" ms (SerialNumber old);
           Status := json.field "status" ms (Status old);
           Metadata_ := json.field "metadata" ms (Metadata_ old) |}
    | _ => old
    end;
  json.misfit v :=
    match v with
    | json.Object ms =>
        existsb (λ kv,
          json.field_misfit string "id" kv
          || json.field_misfit string "object" kv
          || json.field_misfit string "device_software_version" kv
          || json.field_misfit string "device_type" kv
          || json.field_misfit string "ip_address" kv
          || json.field_misfit string "label" kv
          || json.field_misfit bool "livemode" kv
          || json.field_misfit string "location" kv
          || json.field_misfit string "serial_number" kv
          || json.field_misfit string "status" kv
          || json.field_misfit Metadata "metadata" kv) ms
    | json.Null => false
    | _ => true
    end;
|}.

Record readersResponse : Type := mkReadersResponse {
  Error : string;
  rr_Object : string;
  URL : string;
  HasMore : bool;
  Data : list Reader;
}.

#[global] Instance readersResponse_unmarshaler : json.Unmarshaler readersResponse := {|
  json.zero := mkReadersResponse "" "" "" false [];
  json.store v old :=
    match v with
    | json.Object ms =>
        {| Error := json.field "error" ms (Error old);
           rr_Object := json.field "object" ms (rr_Object old);
           URL := json.field "url" ms (URL old);
           HasMore := json.field "has_more" ms (HasMore old);
           Data := json.slice_field "data" ms (Data old) |}
    | _ => old
    end;
  json.misfit v :=
    match v with
    | json.Object ms =>
        existsb (λ kv,
          json.field_misfit string "error" kv
          || json.field_misfit string "object" kv
          || json.field_misfit string "url" kv
          || json.field_misfit bool "has_more" kv
          || json.field_misfit (list Reader) "data" kv) ms
    | json.Null => false
    | _ => true
    end;
|}.

(** The four one-field responses differ only in the tag of their field. *)
Definition store_one (tag : string) (v : json.value) (old : string) : string :=
  match v with
  | json.Object ms => json.field tag ms old
  | _ => old
  end.

Definition misfit_one (tag : string) (v : json.value) : bool :=
  match v with
  | json.Object ms => existsb (json.field_misfit string tag) ms
  | json.Null => false
  | _ => true
  end.

Record createPaymentIntentResponse : Type :=
  mkCreatePaymentIntentResponse { cpi_ID : string }.

#[global] Instance createPaymentIntentResponse_unmarshaler :
  json.Unmarshaler createPaymentIntentResponse := {|
  json.zero := mkCreatePaymentIntentResponse "";
  json.store v old := mkCreatePaymentIntentResponse (store_one "id" v (cpi_ID old));
  json.misfit := misfit_one "id";
|}.

Record startNewRPCSessionResponse : Type :=
  mkStartNewRPCSessionResponse { SDKRPCSessionToken : string }.

#[global] Instance startNewRPCSessionResponse_unmarshaler :
  json.Unmarshaler startNewRPCSessionResponse := {|
  json.zero := mkStartNewRPCSessionResponse "";
  json.store v old :=
    mkStartNewRPCSessionResponse
      (store_one "sdk_rpc_session_token" v (SDKRPCSessionToken old));
  json.misfit := misfit_one "sdk_rpc_session_token";
|}.

Record getConnectionTokenResponse : Type :=
  mkGetConnectionTokenResponse { Secret : string }.

#[global] Instance getConnectionTokenResponse_unmarshaler :
  json.Unmarshaler getConnectionTokenResponse := {|
  json.zero := mkGetConnectionTokenResponse "";
  json.store v old := mkGetConnectionTokenResponse (store_one "secret" v (Secret old));
  json.misfit := misfit_one "secret";
|}.

Record registerReaderResponse : Type :=
  mkRegisterReaderResponse { rrr_IPAddress : string }.

#[global] Instance registerReaderResponse_unmarshaler :
  json.Unmarshaler registerReaderResponse := {|
  json.zero := mkRegisterReaderResponse "";
  json.store v old :=
    mkRegisterReaderResponse (store_one "ip_address" v (rrr_IPAddress old));
  json.misfit := misfit_one "ip_address";
|}.

(** ** The session context *)

(** Modelled from the spec: the device identity record of the session
    context ([DeviceInfo] is declared outside the file); these are the six
    fields the file reads. *)
Record POSInfo : Type := mkPOSInfo { Description : string }.
Record HardwareModel_t : Type := mkHardwareModel { POSInfo_ : POSInfo }.
Record AppModel_t : Type := mkAppModel { AppID : string; AppVersion : string }.
Record DeviceInfo_t : Type := mkDeviceInfo {
  DeviceClass : string;
  DeviceUUID : string;
  HostOSVersion : string;
  HardwareModel : HardwareModel_t;
  AppModel : AppModel_t;
}.

(** Modelled from the spec: [TerminalSessionContext] (declared outside the
    file), with the fields the spec lists, which are the ones the file
    reads. *)
Record TerminalSessionContext : Type := mkTerminalSessionContext {
  APIKey : string;
  DeviceInfo : DeviceInfo_t;
  PstToken : string;
  Amount : Z;
  Currency : string;
  PaymentIntentID : string;
}.

(** The context with another API key, everything else the same. *)
Definition with_APIKey (key : string) (c : TerminalSessionContext)
    : TerminalSessionContext :=
  {| APIKey := key; DeviceInfo := DeviceInfo c; PstToken := PstToken c;
     Amount := Amount c; Currency := Currency c;
     PaymentIntentID := PaymentIntentID c |}.

(** ** The world the operations run in *)

(** A call to an HTTP client: to the authenticated client of [pkg/stripe]
    ([Client.PerformRequest], whose context and configure arguments are
    [context.TODO()] and [nil] at every call site), or to the zero
    [http.Client] of line 98 ([http.Client.Do]).  A call is what the file
    does; the requests a client puts on the wire to serve one call are the
    client's own business (see [Client_Do] below). *)
Inductive Call : Type :=
| PerformRequest_call (client : stripe.Client) (method path params : string)
| Do_call (request : http.Request).

Inductive Event : Type :=
| Called (c : Call)
| Closed (h : nat).

(** What a client returns for a call: an error, or the response it ends
    with (the last one, if it followed redirects), with its status and its
    body.  (Go returns a response to look at exactly when the error is
    nil.) *)
Inductive Reply : Type :=
| Fails (e : error)
| Responds (status : Z) (body : string).

(** The caller's session context variable, and the calls to the HTTP
    clients and the closes of bodies so far, oldest first. *)
Record World : Type := mkWorld {
  session : TerminalSessionContext;
  log : list Event;
}.

Definition M (A : Type) : Type := World → A * World.

#[global] Instance M_ret : MRet M := λ A a w, (a, w).
#[global] Instance M_bind : MBind M :=
  λ A B f m w, let '(a, w') := m w in f a w'.

Definition emit (e : Event) : M unit :=
  λ w, (tt, {| session := session w; log := log w ++ [e] |}).

(** [res.Body.Close()]; the error it returns is dropped by every caller. *)
Definition Close (body : http.ReadCloser) : M unit :=
  emit (Closed (http.handle body)).

(** The value an operation returns, and the line of the [return] statement
    that produced it (ghost data, used to state which exits are taken). *)
Record Result (T : Type) : Type := Return {
  line : nat;
  value : T;
  err : option error;
}.
Arguments Return {T} line value err.
Arguments line {T} r.
Arguments value {T} r.
Arguments err {T} r.

(** Go's [(value, error)] pair of a call that yields one or the other. *)
Definition go_pair {A} (r : A + error) : option A * option error :=
  match r with
  | inl a => (Some a, None)
  | inr e => (None, Some e)
  end.

(** How [%s] prints a [*url.URL] operand. *)
Definition URL_operand (u : option http.URL) : string :=
  match u with
  | Some u => http.URL_String u
  | None => "<nil>"
  end.

(** ** The zero [http.Client], request by request

    [http.Client.Do] on the zero client follows redirects: to serve one call
    it sends the request, and as long as the answer is a redirect with a
    [Location] it sends a request to the new place, up to ten requests in
    all.  This is the loop of [Client.do] in [net/http]. *)

Record WireResponse : Type := mkWireResponse {
  WireStatus : Z;
  WireHeader : http.Header;
  WireBody : string;
}.

(** What comes back for one request on the wire. *)
Inductive WireReply : Type :=
| WireFails (e : error)
| WireAnswers (r : WireResponse).

(** [redirectBehavior] for a request whose body can be sent again (one made
    by [http.NewRequest] from a buffer, as the file's is): the method of the
    next request and whether it carries the body, or [None] when the
    response is not to be followed.  301, 302 and 303 turn anything but GET
    and HEAD into a GET without body; 307 and 308 repeat the request. *)
Definition redirectBehavior (reqMethod : string) (status : Z)
    : option (string * bool) :=
  if bool_decide (status = 301 ∨ status = 302 ∨ status = 303) then
    Some (if bool_decide (reqMethod ≠ "GET" ∧ reqMethod ≠ "HEAD")
          then "GET" else reqMethod, false)
  else if bool_decide (status = 307 ∨ status = 308) then Some (reqMethod, true)
  else None.

(** What the loop takes from the rest of [net/http] when it builds the next
    request: the [Location] resolved against the URL of the request before
    ([URL.Parse]), and the header of the next request (the header of the
    first request, less the credentials when the host changes, plus a
    [Referer]), given the first request, the one before and the new URL. *)
Record Redirection : Type := mkRedirection {
  resolve : http.URL → string → http.URL + error;
  forward : http.Request → http.Request → http.URL → http.Header;
}.

(** The loop: [left] is how many more requests may follow this one; [first]
    is the request of the call, [sent] the requests already sent for it.
    The result is what [Do] returns and the requests sent.  The errors are
    the transport's, a [Location] that does not parse, and the tenth
    redirect (the client wraps each in a [*url.Error]; the model keeps the
    transport's as it is). *)
Fixpoint hops (lib : Redirection)
    (server : list http.Request → http.Request → WireReply) (left : nat)
    (first : http.Request) (sent : list http.Request) (req : http.Request)
    : Reply * list http.Request :=
  match server sent req with
  | WireFails e => (Fails e, (sent ++ [req])%list)
  | WireAnswers r =>
      match redirectBehavior (http.Method req) (WireStatus r) with
      | None => (Responds (WireStatus r) (WireBody r), (sent ++ [req])%list)
      | Some (redirectMethod, includeBody) =>
          let loc := http.Header_Get "Location" (WireHeader r) in
          if bool_decide (loc = "")
          then (Responds (WireStatus r) (WireBody r), (sent ++ [req])%list)
          else
            match resolve lib (http.RequestURL req) loc with
            | inr _ =>
                (Fails (LibraryError "failed to parse Location header"),
                 (sent ++ [req])%list)
            | inl u =>
                match left with
                | O => (Fails (LibraryError "stopped after 10 redirects"),
                        (sent ++ [req])%list)
                | S left' =>
                    hops lib server left' first ((sent ++ [req])%list)
                      {| http.Method := redirectMethod;
                         http.RequestURL := u;
                         http.Header_ := forward lib first req u;
                         http.RequestBody :=
                           if includeBody then http.RequestBody first else "" |}
                end
            end
      end
  end.

(** [http.Client.Do] on the zero client: what it returns, and the requests
    it sent. *)
Definition Client_Do (lib : Redirection)
    (server : list http.Request → http.Request → WireReply)
    (req : http.Request) : Reply * list http.Request :=
  hops lib server 9 req [] req.

(** The requests that the [http.Client.Do] calls among [l] put on the wire.
    (What [stripe.Client.PerformRequest] sends is decided in [pkg/stripe],
    outside the file; its calls are not counted here.) *)
Definition wire_requests (lib : Redirection)
    (server : list http.Request → http.Request → WireReply)
    (l : list Call) : list http.Request :=
  c ← l;
  match c with
  | Do_call request => (Client_Do lib server request).2
  | PerformRequest_call _ _ _ _ => []
  end.

(** What the file takes from its surroundings: constants of the repository
    that it uses and does not declare, the library behaviour it relies on
    ([url.Parse], and the scanner of [encoding/json], which yields the first
    JSON value of a stream if it is well formed), and [platform]: what an
    HTTP client returns for a call, that is the client together with the
    transport and the remote platform behind it; it may depend on the calls
    made before. *)
Class Environment : Type := {
  DefaultAPIBaseURL : string;
  stripeTerminalReadersPath : string;
  rpcSessionPath : string;
  stripeTerminalConnectionTokensPath : string;
  stripeCreatePaymentIntentPath : string;
  stripeCapturePaymentIntentPath : string;
  stripeTerminalRegisterPath : string;
  url_Parse : string → http.URL + error;
  json_scan : string → option json.value;
  platform : list Event → Call → Reply;
}.

Section p400.

Context {env : Environment}.

Definition perform (c : Call) : M (http.Response + error) :=
  λ w,
    let w' := {| session := session w; log := log w ++ [Called c] |} in
    match platform (log w) c with
    | Fails e => (inr e, w')
    | Responds status body =>
        (inl {| http.StatusCode := status;
                http.Body := {| http.handle := length (log w);
                                http.content := body |} |}, w')
    end.

Definition PerformRequest (client : stripe.Client)
    (method path params : string) : M (http.Response + error) :=
  perform (PerformRequest_call client method path params).

(** [httpclient.Do(request)]: one call to the zero client, answered by the
    response the client ends with. *)
Definition Do (request : http.Request) : M (http.Response + error) :=
  perform (Do_call request).

(** [http.NewRequest]: the URL is parsed, the header starts empty.  (The
    method is checked too; the file only passes ["POST"].) *)
Definition NewRequest (method urlStr body : string) : http.Request + error :=
  match url_Parse urlStr with
  | inr e => inr e
  | inl u => inl {| http.Method := method; http.RequestURL := u;
                    http.Header_ := ∅; http.RequestBody := body |}
  end.

Definition set_header (key v : string) (r : http.Request) : http.Request :=
  {| http.Method := http.Method r; http.RequestURL := http.RequestURL r;
     http.Header_ := http.Header_Set key v (http.Header_ r);
     http.RequestBody := http.RequestBody r |}.

Definition Decode {T} `{json.Unmarshaler T} (body : http.ReadCloser) (target : T)
    : T * option error :=
  json.Decode json_scan body target.

(** [DiscoverReaders] (lines 60-93). *)
Definition DiscoverReaders (tsCtx : TerminalSessionContext)
    : M (Result (list Reader)) :=
  let '(parsedBaseURL, err) := go_pair (url_Parse DefaultAPIBaseURL) in
  if bool_decide (err ≠ None) then mret (Return 64 [] err) else
  let readersList : list Reader := [] in
  if bool_decide (err ≠ None) then mret (Return 70 readersList err) else
  let client := {| stripe.BaseURL := parsedBaseURL;
                   stripe.APIKey := APIKey tsCtx;
                   stripe.Verbose := false |} in
  r ← PerformRequest client http.MethodGet stripeTerminalReadersPath "";
  match r with
  | inr e => let err := Some e in mret (Return 82 readersList err)
  | inl res =>
      let err : option error := None in
      if bool_decide (http.StatusCode res ≠ http.StatusOK)
      then mret (Return 82 readersList err) else
      let result : readersResponse := json.zero in
      (* defer res.Body.Close() *)
      let result := (Decode (http.Body res) result).1 in
      let readersList := Data result in
      Close (http.Body res);;
      mret (Return 92 readersList None)
  end.

(** [StartNewRPCSession] (lines 97-141). *)
Definition StartNewRPCSession (tsCtx : TerminalSessionContext)
    : M (Result string) :=
  let '(parsedBaseURL, err) := go_pair (url_Parse DefaultAPIBaseURL) in
  if bool_decide (err ≠ None) then mret (Return 102 "" err) else
  let stripeTerminalRPCSessionURL :=
    fmt.Sprintf "%s%s" [URL_operand parsedBaseURL; rpcSessionPath] in
  let data : url.Values := ∅ in
  let data := url.Values_Set "pos_device_info[device_class]"
                (DeviceClass (DeviceInfo tsCtx)) data in
  let data := url.Values_Set "pos_device_info[device_uuid]"
                (DeviceUUID (DeviceInfo tsCtx)) data in
  let data := url.Values_Set "pos_device_info[host_os_version]"
                (HostOSVersion (DeviceInfo tsCtx)) data in
  let data := url.Values_Set "pos_device_info[hardware_model][pos_info][description]"
                (Description (POSInfo_ (HardwareModel (DeviceInfo tsCtx)))) data in
  let data := url.Values_Set "pos_device_info[app_model][app_id]"
                (AppID (AppModel (DeviceInfo tsCtx))) data in
  let data := url.Values_Set "pos_device_info[app_model][app_version]"
                (AppVersion (AppModel (DeviceInfo tsCtx))) data in
  let encodedURLData := url.Values_Encode data in
  let urlDataBuffer := encodedURLData in
  match NewRequest "POST" stripeTerminalRPCSessionURL urlDataBuffer with
  | inr e => let err := Some e in mret (Return 121 "" err)
  | inl request =>
      let request :=
        set_header "Content-Type" "application/x-www-form-urlencoded" request in
      let request :=
        set_header "Authorization" (fmt.Sprintf "Bearer %v" [PstToken tsCtx]) request in
      r ← Do request;
      match r with
      | inr e => let err := Some e in mret (Return 130 "" err)
      | inl res =>
          let err : option error := None in
          if bool_decide (http.StatusCode res ≠ http.StatusOK)
          then mret (Return 130 "" err) else
          let result : startNewRPCSessionResponse := json.zero in
          (* defer res.Body.Close() *)
          let result := (Decode (http.Body res) result).1 in
          let sessionToken := SDKRPCSessionToken result in
          Close (http.Body res);;
          mret (Return 140 sessionToken None)
      end
  end.

(** [GetNewConnectionToken] (lines 145-172). *)
Definition GetNewConnectionToken (tsCtx : TerminalSessionContext)
    : M (Result string) :=
  let '(parsedBaseURL, err) := go_pair (url_Parse DefaultAPIBaseURL) in
  if bool_decide (err ≠ None) then mret (Return 149 "" err) else
  let client := {| stripe.BaseURL := parsedBaseURL;
                   stripe.APIKey := APIKey tsCtx;
                   stripe.Verbose := false |} in
  r ← PerformRequest client http.MethodPost stripeTerminalConnectionTokensPath "";
  match r with
  | inr e => let err := Some e in mret (Return 161 "" err)
  | inl res =>
      let err : option error := None in
      if bool_decide (http.StatusCode res ≠ http.StatusOK)
      then mret (Return 161 "" err) else
      let result : getConnectionTokenResponse := json.zero in
      (* defer res.Body.Close() *)
      let result := (Decode (http.Body res) result).1 in
      let pstToken := Secret result in
      Close (http.Body res);;
      mret (Return 171 pstToken None)
  end.

(** The form [CreatePaymentIntent] fills in (lines 191-196). *)
Definition paymentIntentForm (amountStr currency : string) : url.Values :=
  let data : url.Values := ∅ in
  let data := url.Values_Set "amount" amountStr data in
  let data := url.Values_Set "currency" currency data in
  let data := url.Values_Set "payment_method_types[]" "card_present" data in
  let data := url.Values_Set "capture_method" "manual" data in
  let data := url.Values_Set "description" "Stripe CLI Test Payment" data in
  data.

(** [CreatePaymentIntent] (lines 176-212). *)
Definition CreatePaymentIntent (tsCtx : TerminalSessionContext)
    : M (Result string) :=
  let '(parsedBaseURL, err) := go_pair (url_Parse DefaultAPIBaseURL) in
  if bool_decide (err ≠ None) then mret (Return 180 "" err) else
  let amountStr := strconv.Itoa (Amount tsCtx) in
  let client := {| stripe.BaseURL := parsedBaseURL;
                   stripe.APIKey := APIKey tsCtx;
                   stripe.Verbose := false |} in
  let data := paymentIntentForm amountStr (Currency tsCtx) in
  r ← PerformRequest client http.MethodPost stripeCreatePaymentIntentPath
        (url.Values_Encode data);
  match r with
  | inr e => let err := Some e in mret (Return 201 "" err)
  | inl res =>
      let err : option error := None in
      if bool_decide (http.StatusCode res ≠ http.StatusOK)
      then mret (Return 201 "" err) else
      let result : createPaymentIntentResponse := json.zero in
      (* defer res.Body.Close() *)
      let result := (Decode (http.Body res) result).1 in
      let paymentIntentID := cpi_ID result in
      Close (http.Body res);;
      mret (Return 211 paymentIntentID None)
  end.

(** [CapturePaymentIntent] (lines 215-239); it returns only an error. *)
Definition CapturePaymentIntent (tsCtx : TerminalSessionContext)
    : M (Result unit) :=
  let '(parsedBaseURL, err) := go_pair (url_Parse DefaultAPIBaseURL) in
  if bool_decide (err ≠ None) then mret (Return 219 () err) else
  let stripeCapturePaymentIntentURL :=
    fmt.Sprintf stripeCapturePaymentIntentPath [PaymentIntentID tsCtx] in
  let client := {| stripe.BaseURL := parsedBaseURL;
                   stripe.APIKey := APIKey tsCtx;
                   stripe.Verbose := false |} in
  r ← PerformRequest client http.MethodPost stripeCapturePaymentIntentURL "";
  match r with
  | inr e => mret (Return 233 () (Some ErrCapturePaymentIntentFailed))
  | inl res =>
      if bool_decide (http.StatusCode res ≠ http.StatusOK)
      then mret (Return 233 () (Some ErrCapturePaymentIntentFailed)) else
      Close (http.Body res);;
      mret (Return 238 () None)
  end.

(** [RegisterReader] (lines 243-273). *)
Definition RegisterReader (regcode : string) (tsCtx : TerminalSessionContext)
    : M (Result string) :=
  let '(parsedBaseURL, err) := go_pair (url_Parse DefaultAPIBaseURL) in
  if bool_decide (err ≠ None) then mret (Return 247 "" err) else
  let client := {| stripe.BaseURL := parsedBaseURL;
                   stripe.APIKey := APIKey tsCtx;
                   stripe.Verbose := false |} in
  let data : url.Values := ∅ in
  let data := url.Values_Set "registration_code" regcode data in
  r ← PerformRequest client http.MethodPost stripeTerminalRegisterPath
        (url.Values_Encode data);
  match r with
  | inr e => let err := Some e in mret (Return 262 "" err)
  | inl res =>
      let err : option error := None in
      if bool_decide (http.StatusCode res ≠ http.StatusOK)
      then mret (Return 262 "" err) else
      let result : registerReaderResponse := json.zero in
      (* defer res.Body.Close() *)
      let result := (Decode (http.Body res) result).1 in
      let IPAddress := rrr_IPAddress result in
      Close (http.Body res);;
      mret (Return 272 IPAddress None)
  end.

(** ** The six operations as one family *)

Inductive Operation : Type :=
| OpDiscoverReaders
| OpRegisterReader (regcode : string)
| OpStartNewRPCSession
| OpGetNewConnectionToken
| OpCreatePaymentIntent
| OpCapturePaymentIntent.

(** What an operation hands back besides its error. *)
Inductive Value : Type :=
| Readers (l : list Reader)
| Text (s : string)
| Nothing.

Definition with_value {A} (f : A → Value) (m : M (Result A)) : M (Result Value) :=
  r ← m; mret (Return (line r) (f (value r)) (err r)).

Definition invoke (op : Operation) (tsCtx : TerminalSessionContext)
    : M (Result Value) :=
  match op with
  | OpDiscoverReaders => with_value Readers (DiscoverReaders tsCtx)
  | OpRegisterReader regcode => with_value Text (RegisterReader regcode tsCtx)
  | OpStartNewRPCSession => with_value Text (StartNewRPCSession tsCtx)
  | OpGetNewConnectionToken => with_value Text (GetNewConnectionToken tsCtx)
  | OpCreatePaymentIntent => with_value Text (CreatePaymentIntent tsCtx)
  | OpCapturePaymentIntent => with_value (λ _, Nothing) (CapturePaymentIntent tsCtx)
  end.

(** The zero value of each result type: a nil slice, an empty string. *)
Definition is_zero (v : Value) : bool :=
  match v with
  | Readers l => bool_decide (l = [])
  | Text s => bool_decide (s = "")
  | Nothing => true
  end.

(** ** Observing a run *)

(** The events a computation adds to the log of the world it starts in. *)
Definition events {A} (m : M A) (w : World) : list Event :=
  drop (length (log w)) (log (m w).2).

Fixpoint calls (l : list Event) : list Call :=
  match l with
  | [] => []
  | Called c :: l' => c :: calls l'
  | Closed _ :: l' => calls l'
  end.

(** How often the body with handle [h] is closed in [l]. *)
Fixpoint closes (h : nat) (l : list Event) : nat :=
  match l with
  | [] => 0
  | Closed h' :: l' => (if bool_decide (h' = h) then 1 else 0) + closes h l'
  | Called _ :: l' => closes h l'
  end.

(** The platform's answers to the calls of [l], made one after the other
    after [past]. *)
Fixpoint answers (past l : list Event) : list Reply :=
  match l with
  | [] => []
  | Called c :: l' => platform past c :: answers (past ++ [Called c]) l'
  | e :: l' => answers (past ++ [e]) l'
  end.

(** The handles of the bodies acquired by the calls of [l]: a call made
    when the log holds [n] events and answered by a response acquires the
    body with handle [n]. *)
Fixpoint bodies (past l : list Event) : list nat :=
  match l with
  | [] => []
  | Called c :: l' =>
      match platform past c with
      | Responds _ _ => length past :: bodies (past ++ [Called c]) l'
      | Fails _ => bodies (past ++ [Called c]) l'
      end
  | e :: l' => bodies (past ++ [e]) l'
  end.

(** The platform's answer to the first call of a run, if the run makes one;
    the bodies a run acquires. *)
Definition answer {A} (m : M A) (w : World) : option Reply :=
  head (answers (log w) (events m w)).

Definition acquired {A} (m : M A) (w : World) : list nat :=
  bodies (log w) (events m w).

(** The [return] statements behind the [url.Parse] check that opens each
    operation. *)
Definition parse_exit (op : Operation) : nat :=
  match op with
  | OpDiscoverReaders => 64
  | OpRegisterReader _ => 247
  | OpStartNewRPCSession => 102
  | OpGetNewConnectionToken => 149
  | OpCreatePaymentIntent => 180
  | OpCapturePaymentIntent => 219
  end.

End p400.

(** ** The field each operation reads off its response

    The JSON tag of the one field of the response struct an operation
    decodes (lines 42-56) and returns; [DiscoverReaders] returns a list and
    [CapturePaymentIntent] decodes nothing. *)
Definition response_tag (op : Operation) : option string :=
  match op with
  | OpRegisterReader _ => Some "ip_address"
  | OpStartNewRPCSession => Some "sdk_rpc_session_token"
  | OpGetNewConnectionToken => Some "secret"
  | OpCreatePaymentIntent => Some "id"
  | OpDiscoverReaders | OpCapturePaymentIntent => None
  end.

(** The [return] statement at the end of each operation. *)
Definition success_exit (op : Operation) : nat :=
  match op with
  | OpDiscoverReaders => 92
  | OpRegisterReader _ => 272
  | OpStartNewRPCSession => 140
  | OpGetNewConnectionToken => 171
  | OpCreatePaymentIntent => 211
  | OpCapturePaymentIntent => 238
  end.

(** ** Test doubles

    A stub platform in the manner of the spec's end-to-end scenarios: fixed
    constants, a parser that accepts [https] URLs, a scanner given by a
    table of bodies, and a platform given by its answers. *)

Definition test_Parse (s : string) : http.URL + error :=
  if String.prefix "https://" s then inl (http.mkURL s)
  else inr (LibraryError "parse: missing protocol scheme").

Definition test_scan (table : list (string * json.value)) (body : string)
    : option json.value :=
  (list_to_map table : gmap string json.value) !! body.

Definition test_env (table : list (string * json.value))
    (answers : list Event → Call → Reply) : Environment := {|
  DefaultAPIBaseURL := "https://api.stripe.com";
  stripeTerminalReadersPath := "/v1/terminal/readers";
  rpcSessionPath := "/v1/terminal/connection_tokens/generate_pos_rpc_session";
  stripeTerminalConnectionTokensPath := "/v1/terminal/connection_tokens";
  stripeCreatePaymentIntentPath := "/v1/payment_intents";
  stripeCapturePaymentIntentPath := "/v1/payment_intents/%s/capture";
  stripeTerminalRegisterPath := "/v1/terminal/readers";
  url_Parse := test_Parse;
  json_scan := test_scan table;
  platform := answers;
|}.

Definition always (r : Reply) : list Event → Call → Reply := λ _ _, r.

Definition test_device : DeviceInfo_t := {|
  DeviceClass := "POS";
  DeviceUUID := "pos-uuid";
  HostOSVersion := "linux";
  HardwareModel := mkHardwareModel (mkPOSInfo "test machine");
  AppModel := mkAppModel "Stripe-CLI" "1.0";
|}.

Definition test_ctx : TerminalSessionContext := {|
  APIKey := "sk_test_123";
  DeviceInfo := test_device;
  PstToken := "pst_test_456";
  Amount := 1999;
  Currency := "usd";
  PaymentIntentID := "pi_123";
|}.

Definition test_world : World := {| session := test_ctx; log := [] |}.

(** The six operations, [RegisterReader] with a registration code. *)
Definition six_operations : list Operation :=
  [OpDiscoverReaders; OpRegisterReader "quick-brown-fox"; OpStartNewRPCSession;
   OpGetNewConnectionToken; OpCreatePaymentIntent; OpCapturePaymentIntent].

(** The five operations that go through the client of [pkg/stripe]. *)
Definition client_operations : list Operation :=
  [OpDiscoverReaders; OpRegisterReader "quick-brown-fox";
   OpGetNewConnectionToken; OpCreatePaymentIntent; OpCapturePaymentIntent].

(** The bodies of the scenarios, and the values they scan to. *)
Definition q (s : string) : string := String "034" (s ++ String "034" "").

Definition reader_json (id : string) : json.value :=
  json.Object [("id", json.Str id)].

Definition two_readers_body : string :=
  "{" ++ q "data" ++ ": [{" ++ q "id" ++ ":" ++ q "tmr_1" ++ "}, {"
      ++ q "id" ++ ":" ++ q "tmr_2" ++ "}], " ++ q "has_more" ++ ":false}".

Definition two_readers_json : json.value :=
  json.Object [("data", json.Array [reader_json "tmr_1"; reader_json "tmr_2"]);
               ("has_more", json.Bool false)].

Definition same_reader_twice_body : string :=
  "{" ++ q "data" ++ ": [{" ++ q "id" ++ ":" ++ q "tmr_1" ++ "}, {"
      ++ q "id" ++ ":" ++ q "tmr_1" ++ "}], " ++ q "has_more" ++ ":false}".

Definition same_reader_twice_json : json.value :=
  json.Object [("data", json.Array [reader_json "tmr_1"; reader_json "tmr_1"]);
               ("has_more", json.Bool false)].

Definition first_page_body : string :=
  "{" ++ q "data" ++ ": [{" ++ q "id" ++ ":" ++ q "tmr_1" ++ "}], "
      ++ q "has_more" ++ ":true}".

Definition first_page_json : json.value :=
  json.Object [("data", json.Array [reader_json "tmr_1"]);
               ("has_more", json.Bool true)].

Definition payment_intent_body : string :=
  "{" ++ q "id" ++ ": " ++ q "pi_123" ++ "}".

Definition payment_intent_json : json.value :=
  json.Object [("id", json.Str "pi_123")].

(** A body cut off in the middle of a member: not a JSON value. *)
Definition truncated_body : string := "{" ++ q "id" ++ ": " ++ String "034" "pi_12".

Definition card_declined_body : string :=
  "{" ++ q "error" ++ ": {" ++ q "code" ++ ": " ++ q "card_declined" ++ "}}".

Definition test_table : list (string * json.value) :=
  [(two_readers_body, two_readers_json);
   (same_reader_twice_body, same_reader_twice_json);
   (first_page_body, first_page_json);
   (payment_intent_body, payment_intent_json);
   (card_declined_body,
    json.Object [("error", json.Object [("code", json.Str "card_declined")])])].

(** The platform answers every call with the given status and body. *)
Definition stub (status : Z) (body : string) : Environment :=
  test_env test_table (always (Responds status body)).

(** The transport fails on every call. *)
Definition unreachable_platform : Environment :=
  test_env test_table (always (Fails (LibraryError "dial tcp: connection refused"))).

(** An environment in which the calls to [http.Client.Do] are served by the
    zero client over a server that answers request by request; the calls to
    the client of [pkg/stripe] are answered as in [base]. *)
Definition over_the_wire (lib : Redirection)
    (server : list http.Request → http.Request → WireReply)
    (base : Environment) : Environment := {|
  DefaultAPIBaseURL := DefaultAPIBaseURL (Environment := base);
  stripeTerminalReadersPath := stripeTerminalReadersPath (Environment := base);
  rpcSessionPath := rpcSessionPath (Environment := base);
  stripeTerminalConnectionTokensPath :=
    stripeTerminalConnectionTokensPath (Environment := base);
  stripeCreatePaymentIntentPath := stripeCreatePaymentIntentPath (Environment := base);
  stripeCapturePaymentIntentPath := stripeCapturePaymentIntentPath (Environment := base);
  stripeTerminalRegisterPath := stripeTerminalRegisterPath (Environment := base);
  url_Parse := url_Parse (Environment := base);
  json_scan := json_scan (Environment := base);
  platform := λ past c,
    match c with
    | Do_call request => (Client_Do lib server request).1
    | PerformRequest_call _ _ _ _ => platform (Environment := base) past c
    end;
|}.

(** Absolute [Location]s on the same host: they parse as URLs do, and the
    header of the first request is sent along as it is. *)
Definition test_redirection : Redirection := {|
  resolve := λ _ loc, test_Parse loc;
  forward := λ first _ _, http.Header_ first;
|}.

Definition session_token_body : string :=
  "{" ++ q "sdk_rpc_session_token" ++ ": " ++ q "rpc_789" ++ "}".

(** A server that has moved the session endpoint: the first request of a
    call is answered 307 with the new place, the next one 200. *)
Definition moved_server (sent : list http.Request) (req : http.Request)
    : WireReply :=
  match sent with
  | [] =>
      WireAnswers
        {| WireStatus := 307;
           WireHeader :=
             http.Header_Set "Location" "https://api.stripe.com/v2/rpc_session" ∅;
           WireBody := "" |}
  | _ => WireAnswers {| WireStatus := 200; WireHeader := ∅;
                        WireBody := session_token_body |}
  end.

Definition moved : Environment :=
  over_the_wire test_redirection moved_server
    (test_env ((session_token_body,
                json.Object [("sdk_rpc_session_token", json.Str "rpc_789")])
               :: test_table)
              (always (Responds 200 payment_intent_body))).

(** A server that answers every request with a redirect. *)
Definition looping_server (sent : list http.Request) (req : http.Request)
    : WireReply :=
  WireAnswers
    {| WireStatus := 308;
       WireHeader := http.Header_Set "Location" "https://api.stripe.com/again" ∅;
       WireBody := "" |}.

(** Keys that are a field's tag only once folded: [secret] written with a
    long s (U+017F), [sdk_rpc_session_token] written with a Kelvin sign
    (U+212A). *)
Definition long_s_secret : string := String "197" (String "191" "ecret").
Definition kelvin_token : string :=
  "sd" ++ String "226" (String "132" (String "170" "_rpc_session_token")).

Definition two_secrets_body : string :=
  "{" ++ q "secret" ++ ":" ++ q "good" ++ "," ++ q long_s_secret ++ ":"
      ++ q "evil" ++ "}".

Definition folded_keys_table : list (string * json.value) :=
  [(two_secrets_body,
    json.Object [("secret", json.Str "good"); (long_s_secret, json.Str "evil")]);
   (session_token_body,
    json.Object [(kelvin_token, json.Str "kelvin")])].

(** A [data] member three times: two readers, then one, then two again. *)
Definition regrown_data : json.value :=
  json.Object
    [("data", json.Array [json.Object [("id", json.Str "a"); ("label", json.Str "first")];
                          json.Object [("id", json.Str "b"); ("label", json.Str "second")]]);
     ("data", json.Array [json.Object [("id", json.Str "c")]]);
     ("data", json.Array [json.Object [("id", json.Str "d")];
                          json.Object [("id", json.Str "e")]])].

(** * Properties *)

(** ** Library facts *)

Lemma append_empty (s : string) : (s ++ "")%string = s.
Proof.
  induction s as [|c s IH]; [reflexivity|].
  change (String c (s ++ "") = String c s)%string. now rewrite IH.
Qed.

Lemma Sprintf_bearer (token : string) :
  fmt.Sprintf "Bearer %v" [token] = ("Bearer " ++ token)%string.
Proof.
  change (fmt.Sprintf "Bearer %v" [token]) with ("Bearer " ++ (token ++ ""))%string.
  now rewrite append_empty.
Qed.

Lemma Sprintf_concat (a b : string) :
  fmt.Sprintf "%s%s" [a; b] = (a ++ b)%string.
Proof.
  change (fmt.Sprintf "%s%s" [a; b]) with (a ++ (b ++ ""))%string.
  now rewrite append_empty.
Qed.

Lemma QueryEscape_unreserved (c : ascii) (s : string) :
  url.shouldEscape c = false →
  url.QueryEscape (String c s) = String c (url.QueryEscape s).
Proof. intros Hc. cbn [url.QueryEscape]. now rewrite Hc. Qed.

Lemma QueryEscape_digits (d : Decimal.uint) :
  url.QueryEscape (NilEmpty.string_of_uint d) = NilEmpty.string_of_uint d.
Proof.
  induction d as [|d IH|d IH|d IH|d IH|d IH|d IH|d IH|d IH|d IH|d IH];
    cbn [NilEmpty.string_of_uint]; [reflexivity | ..];
    rewrite QueryEscape_unreserved by reflexivity; now rewrite IH.
Qed.

(** A decimal numeral passes through [url.QueryEscape] unchanged. *)
Lemma QueryEscape_Itoa (i : Z) :
  url.QueryEscape (strconv.Itoa i) = strconv.Itoa i.
Proof.
  unfold strconv.Itoa, NilZero.string_of_int, NilZero.string_of_uint.
  destruct (Z.to_int i) as [d|d]; [|rewrite QueryEscape_unreserved by reflexivity];
    (destruct d; [reflexivity | rewrite QueryEscape_digits; reflexivity ..]).
Qed.

(** The form of [CreatePaymentIntent] holds five keys, each with one value. *)
Lemma paymentIntentForm_fields (amountStr currency : string) :
  paymentIntentForm amountStr currency =
  list_to_map [("amount", [amountStr]); ("currency", [currency]);
               ("payment_method_types[]", ["card_present"]);
               ("capture_method", ["manual"]);
               ("description", ["Stripe CLI Test Payment"])].
Proof. reflexivity. Qed.

Lemma paymentIntentForm_encoded (amountStr currency : string) :
  url.Values_Encode (paymentIntentForm amountStr currency) =
  ("amount=" ++ url.QueryEscape amountStr
   ++ "&capture_method=manual&currency=" ++ url.QueryEscape currency
   ++ "&description=Stripe+CLI+Test+Payment"
   ++ "&payment_method_types%5B%5D=card_present")%string.
Proof. vm_compute. reflexivity. Qed.

(** A member list in which only one member is stored in the field [tag]. *)
Lemma field_skip {T} `{json.Unmarshaler T} (tag : string)
    (ms : list (string * json.value)) (old : T) :
  Forall (λ kv, json.is_field tag kv.1 = false) ms →
  json.field tag ms old = old.
Proof.
  unfold json.field. revert old.
  induction ms as [|kv ms IH]; intros old Hms; [reflexivity|].
  inversion Hms as [|? ? Hkv Hrest]; subst.
  cbn [fold_left]. rewrite Hkv. now apply IH.
Qed.

Lemma field_single {T} `{json.Unmarshaler T} (tag key : string) (v : json.value)
    (before after : list (string * json.value)) (old : T) :
  json.is_field tag key = true →
  Forall (λ kv, json.is_field tag kv.1 = false) before →
  Forall (λ kv, json.is_field tag kv.1 = false) after →
  json.field tag (before ++ (key, v) :: after) old = json.store v old.
Proof.
  intros Hkey Hbefore Hafter.
  unfold json.field. rewrite fold_left_app. cbn [fold_left fst snd].
  rewrite Hkey.
  change (fold_left _ before old) with (json.field tag before old).
  rewrite (field_skip tag before old Hbefore).
  change (fold_left ?f after ?x) with (json.field tag after x).
  now apply field_skip.
Qed.

(** A fold over members none of which is stored in the field [tag]. *)
Lemma fold_skip {A} (f : json.value → A → A) (tag : string)
    (ms : list (string * json.value)) (a : A) :
  Forall (λ kv, json.is_field tag kv.1 = false) ms →
  fold_left (λ acc kv, if json.is_field tag kv.1 then f kv.2 acc else acc) ms a
  = a.
Proof.
  revert a. induction ms as [|kv ms IH]; intros a Hms; [reflexivity|].
  inversion Hms as [|? ? Hkv Hrest]; subst.
  cbn [fold_left]. rewrite Hkv. now apply IH.
Qed.

(** One array member for a slice field of a zero struct: its elements, one
    by one, in their order. *)
Lemma slice_field_single {T} `{json.Unmarshaler T} (tag key : string)
    (l : list json.value) (before after : list (string * json.value)) :
  json.is_field tag key = true →
  Forall (λ kv, json.is_field tag kv.1 = false) before →
  Forall (λ kv, json.is_field tag kv.1 = false) after →
  json.slice_field tag (before ++ (key, json.Array l) :: after) ([] : list T)
  = (λ x, json.store x json.zero) <$> l.
Proof.
  intros Hkey Hbefore Hafter.
  unfold json.slice_field. rewrite fold_left_app. cbn [fold_left fst snd].
  rewrite Hkey.
  rewrite (fold_skip json.store_slice tag before _ Hbefore).
  rewrite (fold_skip json.store_slice tag after _ Hafter).
  destruct l as [|x l]; [reflexivity|].
  cbn [json.store_slice fst snd app].
  rewrite <- (imap_const (λ y, json.store y json.zero) (x :: l)).
  apply imap_ext. intros i y _. now rewrite lookup_nil.
Qed.

(** Stored over a nil slice, an array yields its elements one by one, in
    their order. *)
Lemma store_array_nil {T} `{json.Unmarshaler T} (l : list json.value) :
  json.store (json.Array l) ([] : list T) = (λ x, json.store x json.zero) <$> l.
Proof.
  cbn [json.store json.slice_unmarshaler].
  rewrite <- (imap_const (λ x, json.store x json.zero) l).
  apply imap_ext. intros i x _. now rewrite lookup_nil.
Qed.

(** One call to the zero client sends at least one request and at most
    ten. *)
Lemma hops_sent (lib : Redirection)
    (server : list http.Request → http.Request → WireReply) (left : nat)
    (first : http.Request) (sent : list http.Request) (req : http.Request) :
  (length sent + 1 ≤ length (hops lib server left first sent req).2
   ≤ length sent + S left)%nat.
Proof.
  revert sent req. induction left as [|left IH]; intros sent req; cbn [hops];
    destruct (server sent req) as [e|r]; cbn [snd];
    try (rewrite length_app; cbn [length]; lia);
    destruct (redirectBehavior _ _) as [[method body]|]; cbn [snd];
    try (rewrite length_app; cbn [length]; lia);
    case_bool_decide; cbn [snd];
    try (rewrite length_app; cbn [length]; lia);
    destruct (resolve lib _ _) as [u|e]; cbn [snd];
    try (rewrite length_app; cbn [length]; lia).
  match goal with
  | |- context [hops lib server left first ?l ?r] =>
      specialize (IH l r); rewrite length_app in IH; cbn [length] in IH; lia
  end.
Qed.

Lemma Client_Do_sent (lib : Redirection)
    (server : list http.Request → http.Request → WireReply)
    (req : http.Request) :
  (1 ≤ length (Client_Do lib server req).2 ≤ 10)%nat.
Proof. unfold Client_Do. pose proof (hops_sent lib server 9 req [] req). cbn [length] in *. lia. Qed.

(** ** Running an operation *)

Lemma drop_log (l : list Event) : drop (length l) l = [].
Proof. apply drop_all. Qed.

Lemma drop_log_1 (l : list Event) (a : Event) :
  drop (length l) (l ++ [a]) = [a].
Proof. apply drop_app_length. Qed.

Lemma drop_log_2 (l : list Event) (a b : Event) :
  drop (length l) ((l ++ [a]) ++ [b]) = [a; b].
Proof. rewrite <- app_assoc. apply drop_app_length. Qed.

Section properties.

Context {env : Environment}.

Ltac unfold_ops :=
  unfold answer, acquired, events;
  unfold invoke, with_value, DiscoverReaders, RegisterReader,
    StartNewRPCSession, GetNewConnectionToken, CreatePaymentIntent,
    CapturePaymentIntent, PerformRequest, Do, perform, Close, emit,
    NewRequest, go_pair, mbind, mret, M_bind, M_ret.

(** One step of a run: project, normalise the log, decide the checks on
    [err], and split on what [url.Parse] and the platform answer and on the
    status check. *)
Ltac step :=
  first
  [ progress cbn [fst snd line value err session log http.StatusCode http.Body
                  http.handle http.content calls closes answers bodies head
                  is_zero parse_exit]
  | rewrite drop_log
  | rewrite drop_log_1
  | rewrite drop_log_2
  | rewrite bool_decide_eq_false_2 by (intros X; apply X; reflexivity)
  | rewrite bool_decide_eq_true_2 by discriminate
  | rewrite (bool_decide_eq_true_2 (_ = _)) by reflexivity
  | match goal with
    | E : url_Parse ?s = _ |- context [url_Parse ?s] => rewrite E
    | E : platform ?l ?c = _ |- context [platform ?l ?c] => rewrite E
    | |- context [match url_Parse ?s with _ => _ end] =>
        destruct (url_Parse s) eqn:?
    | |- context [match platform ?l ?c with _ => _ end] =>
        destruct (platform l c) eqn:?
    | |- context [bool_decide (?a ≠ http.StatusOK)] =>
        destruct (bool_decide_reflect (a ≠ http.StatusOK))
    end ].

Ltac run := unfold_ops; repeat step.

(** ** The frame: what an operation leaves alone *)

(** C9: no operation changes the caller's session context, whatever context
    value it is handed (the caller's own included); all an operation does to
    the world is to append the events of its run to the log, and what it
    derives (tokens, IDs, addresses) is in its result only. *)
Theorem session_context_unchanged (op : Operation)
    (tsCtx : TerminalSessionContext) (w : World) :
  session (invoke op tsCtx w).2 = session w
  ∧ session (invoke op (session w) w).2 = session w
  ∧ (invoke op tsCtx w).2
    = {| session := session w; log := log w ++ events (invoke op tsCtx) w |}.
Proof.
  split; [|split]; destruct op; run;
    rewrite <- ?app_assoc, ?app_nil_r; try reflexivity; now destruct w.
Qed.

(** ** One call per invocation *)

(** C7, as the code has it: an invocation of any of the six operations
    makes at most one call to its HTTP client, whatever the client returns.
    [DiscoverReaders] makes a single GET call on the readers collection and,
    when the envelope says [has_more], still makes no second call and
    returns the one page it decoded.  A call that fails is not made again:
    the failure is returned at once.  (How many requests the client sends
    to serve a call is not the file's doing: see [Client_Do].) *)
Theorem single_request (op : Operation) (tsCtx : TerminalSessionContext)
    (w : World) :
  (length (calls (events (invoke op tsCtx) w)) ≤ 1)%nat
  ∧ (∀ c, c ∈ calls (events (DiscoverReaders tsCtx) w) →
       ∃ client, c = PerformRequest_call client http.MethodGet
                       stripeTerminalReadersPath "")
  ∧ (∀ body,
       answer (DiscoverReaders tsCtx) w = Some (Responds http.StatusOK body) →
       let envelope : readersResponse :=
         (Decode (http.mkReadCloser (length (log w)) body) json.zero).1 in
       HasMore envelope = true →
       length (calls (events (DiscoverReaders tsCtx) w)) = 1%nat
       ∧ value (DiscoverReaders tsCtx w).1 = Data envelope)
  ∧ (∀ e, answer (invoke op tsCtx) w = Some (Fails e) →
       length (calls (events (invoke op tsCtx) w)) = 1%nat
       ∧ err (invoke op tsCtx w).1 ≠ None).
Proof.
  split; [|split; [|split]].
  - destruct op; run; cbn [length]; lia.
  - intros c. run; intros Hc; try (now apply elem_of_nil in Hc);
      apply list_elem_of_singleton in Hc; subst; eauto.
  - intros body. run; try congruence.
    all: intros [= -> ->]; try contradiction; intros _; split; reflexivity.
  - intros e. destruct op; run; try congruence; intros _;
      (split; [reflexivity | discriminate]).
Qed.

(** ** Capture *)

(** C4: [CapturePaymentIntent] returns the sentinel
    [ErrCapturePaymentIntentFailed], which carries no cause, when the
    transport fails (whatever its error) and when the status is not 200
    (whatever the body); its error is nil exactly when the platform answers
    its call with status 200. *)
Theorem capture_sentinel (tsCtx : TerminalSessionContext) (w : World) :
  (∀ e, answer (CapturePaymentIntent tsCtx) w = Some (Fails e) →
     err (CapturePaymentIntent tsCtx w).1 = Some ErrCapturePaymentIntentFailed)
  ∧ (∀ status body,
       answer (CapturePaymentIntent tsCtx) w = Some (Responds status body) →
       status ≠ http.StatusOK →
       err (CapturePaymentIntent tsCtx w).1 = Some ErrCapturePaymentIntentFailed)
  ∧ (err (CapturePaymentIntent tsCtx w).1 = None
     ↔ ∃ body, answer (CapturePaymentIntent tsCtx) w
               = Some (Responds http.StatusOK body)).
Proof.
  repeat split.
  - intros e. run; congruence.
  - intros status body. run; try congruence.
    intros [= -> ->] Hstatus. contradiction.
  - run; try congruence. intros _. eexists. do 2 f_equal.
    destruct (decide (status = http.StatusOK)); [assumption | contradiction].
  - intros [body Hbody]. revert Hbody. run; congruence.
Qed.

(** ** Decoding *)

(** C8: in each of the five operations that decode a response, a 200
    response whose body is not well-formed JSON yields the zero value of
    the result and a nil error: the decoder reports an error and leaves the
    target untouched, and the operation drops the report. *)
Theorem decode_error_discarded (op : Operation)
    (tsCtx : TerminalSessionContext) (w : World) (body : string) :
  op ≠ OpCapturePaymentIntent →
  answer (invoke op tsCtx) w = Some (Responds http.StatusOK body) →
  json_scan body = None →
  (∀ T (U : json.Unmarshaler T) (target : T),
     Decode (http.mkReadCloser (length (log w)) body) target
     = (target, Some json.SyntaxError))
  ∧ err (invoke op tsCtx w).1 = None
  ∧ is_zero (value (invoke op tsCtx w).1) = true.
Proof.
  intros Hop Hanswer Hscan. split.
  - intros T U target. unfold Decode, json.Decode. cbn [http.content].
    now rewrite Hscan.
  - revert Hanswer. destruct op; run; try congruence; intros [= -> ->];
      try contradiction; unfold Decode, json.Decode; cbn [http.content];
      rewrite Hscan; split; reflexivity.
Qed.

(** ** Exits that are never taken *)

(** C10: the second check of [err] in [DiscoverReaders] (line 69) never
    returns, whatever [url.Parse] does; and when the base URL constant is
    well formed, so that [url.Parse] accepts it, no operation leaves through
    the [return] of its opening [url.Parse] check (nor, when the session URL
    built from it is well formed too, through the check after
    [http.NewRequest]). *)
Theorem parse_exits_unreachable (tsCtx : TerminalSessionContext) (w : World) :
  line (DiscoverReaders tsCtx w).1 ≠ 70%nat
  ∧ (∀ u, url_Parse DefaultAPIBaseURL = inl u →
       ∀ op, line (invoke op tsCtx w).1 ≠ parse_exit op)
  ∧ (∀ u u', url_Parse DefaultAPIBaseURL = inl u →
       url_Parse (fmt.Sprintf "%s%s" [http.URL_String u; rpcSessionPath])
       = inl u' →
       line (StartNewRPCSession tsCtx w).1 ≠ 121%nat).
Proof.
  repeat split.
  - run; discriminate.
  - intros u Hu op. destruct op; run; discriminate.
  - intros u u' Hu Hu'. unfold_ops. rewrite Hu. cbn [URL_operand].
    rewrite Hu'. repeat step; discriminate.
Qed.

(** ** What is sent *)

Lemma canonical_Authorization :
  http.CanonicalMIMEHeaderKey "Authorization" = "Authorization".
Proof. reflexivity. Qed.

(** C2: the request [StartNewRPCSession] builds is sent through
    [http.Client.Do] with the header [Authorization: Bearer <PstToken>], and
    nothing of the run depends on [APIKey]; every call of the other five
    operations goes through a [stripe.Client] whose [APIKey] is the
    context's.  And the calls are made: once [url.Parse] accepts the base
    URL, each of the other five operations makes exactly one call, through
    the client built from the parsed base URL and the context's API key;
    once it accepts the session URL too, [StartNewRPCSession] makes exactly
    one call, with the bearer token. *)
Theorem authentication_boundary (tsCtx : TerminalSessionContext) (w : World) :
  (∀ c, c ∈ calls (events (StartNewRPCSession tsCtx) w) →
     ∃ request,
       c = Do_call request
       ∧ http.Header_ request !! "Authorization"
         = Some [("Bearer " ++ PstToken tsCtx)%string])
  ∧ (∀ key,
       StartNewRPCSession (with_APIKey key tsCtx) w
       = StartNewRPCSession tsCtx w)
  ∧ (∀ op c,
       op ≠ OpStartNewRPCSession →
       c ∈ calls (events (invoke op tsCtx) w) →
       ∃ client method path params,
         c = PerformRequest_call client method path params
         ∧ stripe.APIKey client = APIKey tsCtx)
  ∧ (∀ u op,
       url_Parse DefaultAPIBaseURL = inl u →
       op ≠ OpStartNewRPCSession →
       ∃ method path params,
         calls (events (invoke op tsCtx) w)
         = [PerformRequest_call
              {| stripe.BaseURL := Some u; stripe.APIKey := APIKey tsCtx;
                 stripe.Verbose := false |}
              method path params])
  ∧ (∀ u u',
       url_Parse DefaultAPIBaseURL = inl u →
       url_Parse (http.URL_String u ++ rpcSessionPath)%string = inl u' →
       ∃ request,
         calls (events (StartNewRPCSession tsCtx) w) = [Do_call request]
         ∧ http.Header_ request !! "Authorization"
           = Some [("Bearer " ++ PstToken tsCtx)%string]).
Proof.
  split; [|split; [|split; [|split]]].
  - intros c. run; intros Hc; try (now apply elem_of_nil in Hc);
      apply list_elem_of_singleton in Hc; subst; eexists; (split; [reflexivity|]);
      unfold set_header, http.Header_Set; cbn [http.Header_];
      rewrite canonical_Authorization, Sprintf_bearer; apply lookup_insert_eq.
  - intros key. reflexivity.
  - intros op c Hop. destruct op; try contradiction; run; intros Hc;
      try (now apply elem_of_nil in Hc);
      apply list_elem_of_singleton in Hc; subst; do 4 eexists;
      (split; reflexivity).
  - intros u op Hu Hop. destruct op; try contradiction; run;
      do 3 eexists; reflexivity.
  - intros u u' Hu Hu'. unfold_ops. rewrite Hu. cbn [URL_operand].
    rewrite Sprintf_concat, Hu'. repeat step; eexists; (split; [reflexivity|]);
      unfold set_header, http.Header_Set; cbn [http.Header_];
      rewrite canonical_Authorization, Sprintf_bearer; apply lookup_insert_eq.
Qed.

(** C3: whatever the amount and the currency, the call of
    [CreatePaymentIntent] is a POST whose body is the encoding of a form
    with exactly five fields: [amount] (the decimal numeral of
    [tsCtx.Amount]), [currency], [payment_method_types[]] with the one value
    [card_present], [capture_method] with the one value [manual], and the
    fixed description. *)
Theorem create_payment_intent_form (tsCtx : TerminalSessionContext)
    (w : World) (c : Call) :
  c ∈ calls (events (CreatePaymentIntent tsCtx) w) →
  ∃ client (form : url.Values),
    c = PerformRequest_call client http.MethodPost
          stripeCreatePaymentIntentPath (url.Values_Encode form)
    ∧ form = list_to_map
               [("amount", [strconv.Itoa (Amount tsCtx)]);
                ("currency", [Currency tsCtx]);
                ("payment_method_types[]", ["card_present"]);
                ("capture_method", ["manual"]);
                ("description", ["Stripe CLI Test Payment"])]
    ∧ url.Values_Encode form
      = ("amount=" ++ strconv.Itoa (Amount tsCtx)
         ++ "&capture_method=manual&currency=" ++ url.QueryEscape (Currency tsCtx)
         ++ "&description=Stripe+CLI+Test+Payment"
         ++ "&payment_method_types%5B%5D=card_present")%string.
Proof.
  run; intros Hc; try (now apply elem_of_nil in Hc).
  all: apply list_elem_of_singleton in Hc; subst.
  all: eexists _, (paymentIntentForm (strconv.Itoa (Amount tsCtx)) (Currency tsCtx)).
  all: split; [reflexivity|]; split; [apply paymentIntentForm_fields|].
  all: now rewrite paymentIntentForm_encoded, QueryEscape_Itoa.
Qed.

(** ** What is returned *)

(** C6, as the code has it: on a 200 answer [DiscoverReaders] returns, with
    a nil error, exactly the [data] array of the decoded envelope, element
    by element in the order of the JSON array.  It neither checks nor
    removes anything: the IDs it returns are pairwise distinct exactly when
    those of the decoded array are. *)
Theorem discover_readers_returns_data (tsCtx : TerminalSessionContext)
    (w : World) (body : string) :
  answer (DiscoverReaders tsCtx) w = Some (Responds http.StatusOK body) →
  let envelope : readersResponse :=
    (Decode (http.mkReadCloser (length (log w)) body) json.zero).1 in
  err (DiscoverReaders tsCtx w).1 = None
  ∧ value (DiscoverReaders tsCtx w).1 = Data envelope
  ∧ (∀ before after l,
       json_scan body
       = Some (json.Object (before ++ ("data", json.Array l) :: after)) →
       Forall (λ kv, json.is_field "data" kv.1 = false) before →
       Forall (λ kv, json.is_field "data" kv.1 = false) after →
       value (DiscoverReaders tsCtx w).1 = (λ x, json.store x json.zero) <$> l)
  ∧ (NoDup (ID <$> value (DiscoverReaders tsCtx w).1)
     ↔ NoDup (ID <$> Data envelope)).
Proof.
  intros Hanswer envelope. subst envelope. revert Hanswer.
  run; try congruence; intros [= -> ->]; try contradiction.
  repeat split; try tauto.
  intros before after l Hscan Hbefore Hafter.
  unfold Decode, json.Decode. cbn [http.content]. rewrite Hscan.
  cbn [fst json.store json.zero readersResponse_unmarshaler Data].
  apply slice_field_single; assumption || reflexivity.
Qed.

(** ** What the status check does *)

(** On an answer whose status is not 200 every operation returns the zero
    value; only [CapturePaymentIntent] returns an error with it.  The body
    that came with the answer is not closed. *)
Lemma non_200_result (op : Operation) (tsCtx : TerminalSessionContext)
    (w : World) (status : Z) (body : string) :
  answer (invoke op tsCtx) w = Some (Responds status body) →
  status ≠ http.StatusOK →
  is_zero (value (invoke op tsCtx w).1) = true
  ∧ err (invoke op tsCtx w).1
    = match op with
      | OpCapturePaymentIntent => Some ErrCapturePaymentIntentFailed
      | _ => None
      end
  ∧ acquired (invoke op tsCtx) w = [length (log w)]
  ∧ closes (length (log w)) (events (invoke op tsCtx) w) = 0%nat.
Proof.
  destruct op; run; try congruence; intros [= -> ->] Hstatus;
    try contradiction; repeat split.
Qed.

(** On a 200 answer the body is closed once. *)
Lemma status_200_closes_once (op : Operation) (tsCtx : TerminalSessionContext)
    (w : World) (body : string) :
  answer (invoke op tsCtx) w = Some (Responds http.StatusOK body) →
  acquired (invoke op tsCtx) w = [length (log w)]
  ∧ closes (length (log w)) (events (invoke op tsCtx) w) = 1%nat.
Proof.
  destruct op; run; try congruence; intros [= -> ->];
    try contradiction; repeat split.
Qed.

(** When the transport fails there is no body, and the error returned is the
    transport's (the sentinel, for [CapturePaymentIntent]). *)
Lemma transport_failure_result (op : Operation)
    (tsCtx : TerminalSessionContext) (w : World) (e : error) :
  answer (invoke op tsCtx) w = Some (Fails e) →
  is_zero (value (invoke op tsCtx w).1) = true
  ∧ err (invoke op tsCtx w).1
    = match op with
      | OpCapturePaymentIntent => Some ErrCapturePaymentIntentFailed
      | _ => Some e
      end
  ∧ acquired (invoke op tsCtx) w = [].
Proof.
  destruct op; run; try congruence; intros [= ->]; repeat split.
Qed.

(** ** More library facts *)

Lemma Sprintf_other (c : ascii) (s : string) (args : list string) :
  c ≠ "%"%char →
  fmt.Sprintf (String c s) args = String c (fmt.Sprintf s args).
Proof.
  intros Hc.
  destruct c as [[] [] [] [] [] [] [] []]; try reflexivity; now contradiction Hc.
Qed.

Lemma Sprintf_plain (s : string) :
  "%"%char ∉ list_ascii_of_string s → fmt.Sprintf s [] = s.
Proof.
  induction s as [|c s IH]; intros Hs; [reflexivity|].
  cbn [list_ascii_of_string] in Hs. apply not_elem_of_cons in Hs as [Hc Hs].
  rewrite Sprintf_other by congruence. now rewrite IH.
Qed.

Lemma Sprintf_prefix (pre rest : string) (args : list string) :
  "%"%char ∉ list_ascii_of_string pre →
  fmt.Sprintf (pre ++ rest) args = (pre ++ fmt.Sprintf rest args)%string.
Proof.
  induction pre as [|c pre IH]; intros Hpre; [reflexivity|].
  cbn [list_ascii_of_string] in Hpre. apply not_elem_of_cons in Hpre as [Hc Hpre].
  change (String c pre ++ rest)%string with (String c (pre ++ rest)).
  rewrite Sprintf_other by congruence. rewrite IH by assumption. reflexivity.
Qed.

(** One [%s] in an otherwise plain format: the operand is put in its place,
    as it is. *)
Lemma Sprintf_one (pre post a : string) :
  "%"%char ∉ list_ascii_of_string pre →
  "%"%char ∉ list_ascii_of_string post →
  fmt.Sprintf (pre ++ "%s" ++ post) [a] = (pre ++ a ++ post)%string.
Proof.
  intros Hpre Hpost. rewrite Sprintf_prefix by assumption.
  change (fmt.Sprintf ("%s" ++ post) [a]) with (a ++ fmt.Sprintf post [])%string.
  now rewrite Sprintf_plain.
Qed.

Lemma upperhex_unreserved (c : ascii) :
  url.shouldEscape (url.upperhex (N_of_ascii c / 16)) = false
  ∧ url.shouldEscape (url.upperhex (N_of_ascii c mod 16)) = false.
Proof. destruct c as [[] [] [] [] [] [] [] []]; vm_compute; split; reflexivity. Qed.

(** What [url.QueryEscape] lets through: unreserved bytes, and the [+] and
    [%] of its own escapes. *)
Lemma QueryEscape_alphabet (s : string) :
  Forall (λ c, url.shouldEscape c = false ∨ c = "+"%char ∨ c = "%"%char)
         (list_ascii_of_string (url.QueryEscape s)).
Proof.
  induction s as [|c s IH]; [constructor|].
  cbn [url.QueryEscape]. destruct (url.shouldEscape c) eqn:Hc.
  - case_bool_decide; cbn [list_ascii_of_string].
    + constructor; [right; left; reflexivity | exact IH].
    + destruct (upperhex_unreserved c) as [Hhi Hlo].
      repeat (constructor; [first [right; right; reflexivity | left; assumption]|]).
      exact IH.
  - cbn [list_ascii_of_string]. constructor; [left; exact Hc | exact IH].
Qed.

(** An escaped value holds no separator of a form: no [&], no [=]. *)
Lemma QueryEscape_no_separator (s : string) (c : ascii) :
  c ∈ list_ascii_of_string (url.QueryEscape s) → c ≠ "&"%char ∧ c ≠ "="%char.
Proof.
  intros Hc. pose proof (QueryEscape_alphabet s) as Hall.
  rewrite Forall_forall in Hall. destruct (Hall c Hc) as [H|[->| ->]].
  - split; intros ->; discriminate.
  - split; discriminate.
  - split; discriminate.
Qed.

Lemma registration_form_encoded (regcode : string) :
  url.Values_Encode (url.Values_Set "registration_code" regcode ∅)
  = ("registration_code=" ++ url.QueryEscape regcode)%string.
Proof. vm_compute. reflexivity. Qed.

Lemma device_form_encoded (class uuid os description app version : string) :
  url.Values_Encode
    (url.Values_Set "pos_device_info[app_model][app_version]" version
    (url.Values_Set "pos_device_info[app_model][app_id]" app
    (url.Values_Set "pos_device_info[hardware_model][pos_info][description]" description
    (url.Values_Set "pos_device_info[host_os_version]" os
    (url.Values_Set "pos_device_info[device_uuid]" uuid
    (url.Values_Set "pos_device_info[device_class]" class ∅))))))
  = ("pos_device_info%5Bapp_model%5D%5Bapp_id%5D=" ++ url.QueryEscape app
     ++ "&pos_device_info%5Bapp_model%5D%5Bapp_version%5D=" ++ url.QueryEscape version
     ++ "&pos_device_info%5Bdevice_class%5D=" ++ url.QueryEscape class
     ++ "&pos_device_info%5Bdevice_uuid%5D=" ++ url.QueryEscape uuid
     ++ "&pos_device_info%5Bhardware_model%5D%5Bpos_info%5D%5Bdescription%5D="
     ++ url.QueryEscape description
     ++ "&pos_device_info%5Bhost_os_version%5D=" ++ url.QueryEscape os)%string.
Proof. vm_compute. reflexivity. Qed.

Lemma canonical_Content_Type :
  http.CanonicalMIMEHeaderKey "Content-Type" = "Content-Type".
Proof. reflexivity. Qed.

(** ** The requests of the other operations *)

(** X1: whatever the registration code, the call of [RegisterReader] is a
    POST on the registration path, made with the context's API key, whose
    body is [registration_code=] followed by the escaped code; the escaped
    code holds neither [&] nor [=], so the body is one pair and the code
    cannot add a field to it. *)
Theorem register_reader_request (regcode : string)
    (tsCtx : TerminalSessionContext) (w : World) (c : Call) :
  c ∈ calls (events (RegisterReader regcode tsCtx) w) →
  ∃ client,
    c = PerformRequest_call client http.MethodPost stripeTerminalRegisterPath
          ("registration_code=" ++ url.QueryEscape regcode)%string
    ∧ stripe.APIKey client = APIKey tsCtx
    ∧ ∀ x, x ∈ list_ascii_of_string (url.QueryEscape regcode) →
           x ≠ "&"%char ∧ x ≠ "="%char.
Proof.
  run; intros Hc; try (now apply elem_of_nil in Hc).
  all: apply list_elem_of_singleton in Hc; subst.
  all: eexists; rewrite registration_form_encoded.
  all: split; [reflexivity|]; split; [reflexivity|].
  all: apply QueryEscape_no_separator.
Qed.

(** X2: the request [StartNewRPCSession] sends is a POST to the URL made of
    the base URL followed by the session path; it carries exactly two
    headers, the form content type and the bearer token; its body is the
    encoding of exactly the six device descriptor fields, each escaped. *)
Theorem rpc_session_request (tsCtx : TerminalSessionContext) (w : World)
    (c : Call) :
  c ∈ calls (events (StartNewRPCSession tsCtx) w) →
  ∃ u u',
    url_Parse DefaultAPIBaseURL = inl u
    ∧ url_Parse (http.URL_String u ++ rpcSessionPath)%string = inl u'
    ∧ c = Do_call
            {| http.Method := "POST";
               http.RequestURL := u';
               http.Header_ :=
                 list_to_map
                   [("Authorization", [("Bearer " ++ PstToken tsCtx)%string]);
                    ("Content-Type", ["application/x-www-form-urlencoded"])];
               http.RequestBody :=
                 ("pos_device_info%5Bapp_model%5D%5Bapp_id%5D="
                  ++ url.QueryEscape (AppID (AppModel (DeviceInfo tsCtx)))
                  ++ "&pos_device_info%5Bapp_model%5D%5Bapp_version%5D="
                  ++ url.QueryEscape (AppVersion (AppModel (DeviceInfo tsCtx)))
                  ++ "&pos_device_info%5Bdevice_class%5D="
                  ++ url.QueryEscape (DeviceClass (DeviceInfo tsCtx))
                  ++ "&pos_device_info%5Bdevice_uuid%5D="
                  ++ url.QueryEscape (DeviceUUID (DeviceInfo tsCtx))
                  ++ "&pos_device_info%5Bhardware_model%5D%5Bpos_info%5D%5Bdescription%5D="
                  ++ url.QueryEscape
                       (Description (POSInfo_ (HardwareModel (DeviceInfo tsCtx))))
                  ++ "&pos_device_info%5Bhost_os_version%5D="
                  ++ url.QueryEscape (HostOSVersion (DeviceInfo tsCtx)))%string |}.
Proof.
  unfold_ops. destruct (url_Parse DefaultAPIBaseURL) as [u|e] eqn:Hu.
  2: { repeat step. intros Hc. now apply elem_of_nil in Hc. }
  cbn [URL_operand]. rewrite Sprintf_concat.
  destruct (url_Parse (http.URL_String u ++ rpcSessionPath)) as [u'|e] eqn:Hu'.
  2: { repeat step. intros Hc. now apply elem_of_nil in Hc. }
  repeat step; intros Hc; apply list_elem_of_singleton in Hc; subst;
    exists u, u'; (split; [reflexivity|]); (split; [assumption|]);
    unfold set_header, http.Header_Set; cbn [http.Header_ http.Method
      http.RequestURL http.RequestBody];
    rewrite canonical_Authorization, canonical_Content_Type, Sprintf_bearer,
      device_form_encoded; reflexivity.
Qed.

(** X3: when the capture path is a format with the one verb [%s], the call
    of [CapturePaymentIntent] is a POST, with empty parameters and the
    context's API key, on that path with [tsCtx.PaymentIntentID] put in
    place of the verb exactly as it is: the identifier is not escaped. *)
Theorem capture_request (pre post : string) (tsCtx : TerminalSessionContext)
    (w : World) (c : Call) :
  stripeCapturePaymentIntentPath = (pre ++ "%s" ++ post)%string →
  "%"%char ∉ list_ascii_of_string pre →
  "%"%char ∉ list_ascii_of_string post →
  c ∈ calls (events (CapturePaymentIntent tsCtx) w) →
  ∃ client,
    c = PerformRequest_call client http.MethodPost
          (pre ++ PaymentIntentID tsCtx ++ post)%string ""
    ∧ stripe.APIKey client = APIKey tsCtx.
Proof.
  intros Hpath Hpre Hpost. run; intros Hc; try (now apply elem_of_nil in Hc).
  all: apply list_elem_of_singleton in Hc; subst.
  all: eexists; rewrite Hpath, Sprintf_one by assumption.
  all: split; reflexivity.
Qed.

(** ** Failure and success paths *)

(** X4: when the transport fails, the operation makes no further call and
    closes nothing; the five operations that return a value return its zero
    value with the transport's own error, unchanged, and
    [CapturePaymentIntent] returns its sentinel instead. *)
Theorem transport_error_propagated (op : Operation)
    (tsCtx : TerminalSessionContext) (w : World) (e : error) :
  answer (invoke op tsCtx) w = Some (Fails e) →
  err (invoke op tsCtx w).1
  = match op with
    | OpCapturePaymentIntent => Some ErrCapturePaymentIntentFailed
    | _ => Some e
    end
  ∧ is_zero (value (invoke op tsCtx w).1) = true
  ∧ ∃ c, events (invoke op tsCtx) w = [Called c].
Proof.
  destruct op; run; try congruence; intros [= ->]; repeat split; eauto.
Qed.

(** X5: a result that is not the zero value is only ever returned from the
    last [return] of an operation, after the platform answered the call with
    status 200, and always with a nil error. *)
Theorem value_only_after_200 (op : Operation) (tsCtx : TerminalSessionContext)
    (w : World) :
  is_zero (value (invoke op tsCtx w).1) = false →
  line (invoke op tsCtx w).1 = success_exit op
  ∧ err (invoke op tsCtx w).1 = None
  ∧ ∃ body, answer (invoke op tsCtx) w = Some (Responds http.StatusOK body).
Proof.
  destruct op; run; try discriminate; intros _;
    (split; [reflexivity|]); (split; [reflexivity|]); eexists; do 2 f_equal;
    (destruct (decide (status = http.StatusOK)); [assumption | contradiction]).
Qed.

(** ** Closing *)

Lemma closes_app (h : nat) (l k : list Event) :
  closes h (l ++ k) = (closes h l + closes h k)%nat.
Proof.
  induction l as [|[c|h'] l IH]; cbn [closes app]; [reflexivity | exact IH |].
  rewrite IH. lia.
Qed.

(** X6: within one invocation no body is closed twice, and the only body
    ever closed is the one the invocation acquired, which happens exactly
    when the platform answered with status 200. *)
Theorem close_discipline (op : Operation) (tsCtx : TerminalSessionContext)
    (w : World) (h : nat) :
  (closes h (events (invoke op tsCtx) w) ≤ 1)%nat
  ∧ (closes h (events (invoke op tsCtx) w) = 1%nat
     ↔ h = length (log w)
       ∧ ∃ body, answer (invoke op tsCtx) w = Some (Responds http.StatusOK body))
  ∧ (closes h (events (invoke op tsCtx) w) = 1%nat →
     h ∈ acquired (invoke op tsCtx) w).
Proof.
  split; [|split].
  - destruct op; run; repeat case_bool_decide; lia.
  - destruct op; run; (split; [|intros [Hh [body' Hbody]]]);
      repeat case_bool_decide; try discriminate; try lia; try congruence.
    all: intros _; split; [congruence|]; eexists; do 2 f_equal;
      (destruct (decide (status = http.StatusOK)); [assumption | contradiction]).
  - destruct op; run; repeat case_bool_decide; try discriminate; try lia.
    all: intros _; subst; constructor.
Qed.

(** X7: over any sequence of invocations no body is closed twice.  If in the
    log so far every handle is closed at most once and only handles of
    earlier events are closed, the same holds of the log after one more
    invocation of any operation, whatever the platform answers. *)
Theorem closes_stay_single (op : Operation) (tsCtx : TerminalSessionContext)
    (w : World) :
  (∀ h, (closes h (log w) ≤ 1)%nat
        ∧ (closes h (log w) ≠ 0%nat → (h < length (log w))%nat)) →
  ∀ h, (closes h (log (invoke op tsCtx w).2) ≤ 1)%nat
       ∧ (closes h (log (invoke op tsCtx w).2) ≠ 0%nat →
          (h < length (log (invoke op tsCtx w).2))%nat).
Proof.
  intros Hlog h. destruct (Hlog h) as [Hone Hold].
  destruct op; run; rewrite ?closes_app, ?length_app; cbn [closes length];
    repeat case_bool_decide; subst; (split; [|intros Hclosed]); try lia.
  all: destruct (decide (closes (length (log w)) (log w) = 0%nat)) as [Hz|Hnz];
    [lia | apply Hold in Hnz; lia].
Qed.

(** ** The decoded field *)

(** A member whose value is not a JSON string leaves a string field as it
    was, whether or not its key is the field's. *)
Lemma field_unreadable (tag : string) (ms : list (string * json.value))
    (old : string) :
  Forall (λ kv, json.is_field tag kv.1 = true → ∀ s, kv.2 ≠ json.Str s) ms →
  json.field tag ms old = old.
Proof.
  unfold json.field. induction ms as [|[key v] ms IH]; intros Hms; [reflexivity|].
  inversion Hms as [|? ? Hkv Hrest]; subst. cbn [fold_left fst snd] in *.
  destruct (json.is_field tag key).
  - destruct v; cbn [json.store json.string_unmarshaler]; try now apply IH.
    now contradiction (Hkv eq_refl s).
  - now apply IH.
Qed.

(** X8: in the four operations that return a string, a 200 answer whose body
    is a JSON object with one member for the field the operation reads
    (same key up to case), holding a string, yields that string with a nil
    error, whatever other members the object has. *)
Theorem decoded_field_returned (op : Operation) (tag : string)
    (tsCtx : TerminalSessionContext) (w : World) (body key s : string)
    (before after : list (string * json.value)) :
  response_tag op = Some tag →
  answer (invoke op tsCtx) w = Some (Responds http.StatusOK body) →
  json_scan body = Some (json.Object (before ++ (key, json.Str s) :: after)) →
  json.is_field tag key = true →
  Forall (λ kv, json.is_field tag kv.1 = false) before →
  Forall (λ kv, json.is_field tag kv.1 = false) after →
  value (invoke op tsCtx w).1 = Text s ∧ err (invoke op tsCtx w).1 = None.
Proof.
  intros Htag Hanswer Hscan Hkey Hbefore Hafter. revert Hanswer.
  destruct op; try discriminate; injection Htag as <-;
    run; try congruence; intros [= -> ->]; try contradiction;
    unfold Decode, json.Decode; cbn [http.content]; rewrite Hscan;
    cbn [fst json.store createPaymentIntentResponse_unmarshaler
         startNewRPCSessionResponse_unmarshaler
         getConnectionTokenResponse_unmarshaler
         registerReaderResponse_unmarshaler
         cpi_ID SDKRPCSessionToken Secret rrr_IPAddress store_one json.zero];
    rewrite field_single by assumption; split; reflexivity.
Qed.

(** X9: in the same four operations, a 200 answer whose body is a JSON
    value that is not an object, or an object in which no member for the
    field holds a string (the field is missing, [null], a number, ...),
    yields the empty string with a nil error. *)
Theorem unreadable_field_returns_empty (op : Operation) (tag : string)
    (tsCtx : TerminalSessionContext) (w : World) (body : string)
    (v : json.value) :
  response_tag op = Some tag →
  answer (invoke op tsCtx) w = Some (Responds http.StatusOK body) →
  json_scan body = Some v →
  (∀ ms, v = json.Object ms →
     Forall (λ kv, json.is_field tag kv.1 = true → ∀ s, kv.2 ≠ json.Str s) ms) →
  value (invoke op tsCtx w).1 = Text "" ∧ err (invoke op tsCtx w).1 = None.
Proof.
  intros Htag Hanswer Hscan Hv. revert Hanswer.
  assert (Hstore : store_one tag v "" = "").
  { destruct v; try reflexivity. cbn [store_one].
    apply field_unreadable. now apply Hv. }
  destruct op; try discriminate; injection Htag as <-;
    run; try congruence; intros [= -> ->]; try contradiction;
    unfold Decode, json.Decode; cbn [http.content]; rewrite Hscan;
    cbn [fst json.store createPaymentIntentResponse_unmarshaler
         startNewRPCSessionResponse_unmarshaler
         getConnectionTokenResponse_unmarshaler
         registerReaderResponse_unmarshaler
         cpi_ID SDKRPCSessionToken Secret rrr_IPAddress json.zero];
    rewrite Hstore; split; reflexivity.
Qed.

(** ** What each operation reads of the context *)

(** X10: an operation depends on the session context only through the
    fields it sends.  [DiscoverReaders], [GetNewConnectionToken] and
    [RegisterReader] read the API key alone; [CreatePaymentIntent] reads the
    API key, the amount and the currency; [CapturePaymentIntent] reads the
    API key and the payment intent ID; [StartNewRPCSession] reads the device
    identity and the PST token.  Two contexts that agree on those fields
    give the same result and the same calls. *)
Theorem context_fields_read (a b : TerminalSessionContext) (w : World) :
  (APIKey a = APIKey b →
     DiscoverReaders a w = DiscoverReaders b w
     ∧ GetNewConnectionToken a w = GetNewConnectionToken b w
     ∧ ∀ regcode, RegisterReader regcode a w = RegisterReader regcode b w)
  ∧ (APIKey a = APIKey b → Amount a = Amount b → Currency a = Currency b →
     CreatePaymentIntent a w = CreatePaymentIntent b w)
  ∧ (APIKey a = APIKey b → PaymentIntentID a = PaymentIntentID b →
     CapturePaymentIntent a w = CapturePaymentIntent b w)
  ∧ (DeviceInfo a = DeviceInfo b → PstToken a = PstToken b →
     StartNewRPCSession a w = StartNewRPCSession b w).
Proof.
  split; [|split; [|split]].
  - intros Hkey. unfold DiscoverReaders, GetNewConnectionToken, RegisterReader.
    rewrite Hkey. repeat split.
  - intros Hkey Hamount Hcurrency. unfold CreatePaymentIntent.
    now rewrite Hkey, Hamount, Hcurrency.
  - intros Hkey Hid. unfold CapturePaymentIntent. now rewrite Hkey, Hid.
  - intros Hdevice Htoken. unfold StartNewRPCSession.
    now rewrite Hdevice, Htoken.
Qed.

(** ** Create, then capture *)

(** X11: when [CreatePaymentIntent] is answered 200 with an object whose
    [id] member is the string [s], and the caller puts the returned value in
    [PaymentIntentID] and calls [CapturePaymentIntent] in the world the
    first call left, the capture is a POST on the capture path of that very
    [s], made with the same API key. *)
Theorem create_then_capture (pre post : string)
    (tsCtx : TerminalSessionContext) (w : World) (body key s : string)
    (before after : list (string * json.value)) (c : Call) :
  stripeCapturePaymentIntentPath = (pre ++ "%s" ++ post)%string →
  "%"%char ∉ list_ascii_of_string pre →
  "%"%char ∉ list_ascii_of_string post →
  answer (CreatePaymentIntent tsCtx) w = Some (Responds http.StatusOK body) →
  json_scan body = Some (json.Object (before ++ (key, json.Str s) :: after)) →
  json.is_field "id" key = true →
  Forall (λ kv, json.is_field "id" kv.1 = false) before →
  Forall (λ kv, json.is_field "id" kv.1 = false) after →
  c ∈ calls (events
               (CapturePaymentIntent
                  {| APIKey := APIKey tsCtx; DeviceInfo := DeviceInfo tsCtx;
                     PstToken := PstToken tsCtx; Amount := Amount tsCtx;
                     Currency := Currency tsCtx;
                     PaymentIntentID := value (CreatePaymentIntent tsCtx w).1 |})
               (CreatePaymentIntent tsCtx w).2) →
  ∃ client,
    c = PerformRequest_call client http.MethodPost (pre ++ s ++ post)%string ""
    ∧ stripe.APIKey client = APIKey tsCtx.
Proof.
  intros Hpath Hpre Hpost Hanswer Hscan Hkey Hbefore Hafter.
  assert (Hcreated : value (CreatePaymentIntent tsCtx w).1 = s).
  { revert Hanswer. run; try congruence; intros [= -> ->]; try contradiction.
    unfold Decode, json.Decode. cbn [http.content]. rewrite Hscan.
    cbn [fst json.store createPaymentIntentResponse_unmarshaler cpi_ID
         store_one json.zero].
    now rewrite field_single by assumption. }
  rewrite Hcreated. generalize (CreatePaymentIntent tsCtx w).2. intros w'.
  run; intros Hc; try (now apply elem_of_nil in Hc).
  all: apply list_elem_of_singleton in Hc; subst c.
  all: eexists; cbn [PaymentIntentID APIKey];
    rewrite Hpath, Sprintf_one by assumption.
  all: split; reflexivity.
Qed.

End properties.

(** * The properties on the stub platform *)

(** ** The end-to-end scenarios of the spec *)

(** The stub lists two readers; [DiscoverReaders] returns the two, in that
    order. *)
Example scenario_two_readers :
  ID <$> value (DiscoverReaders (env := stub 200 two_readers_body)
                  test_ctx test_world).1
  = ["tmr_1"; "tmr_2"].
Proof. vm_compute. reflexivity. Qed.

(** Create, thread the ID into the context, capture: no error. *)
Example scenario_create_then_capture :
  let env := stub 200 payment_intent_body in
  let created := CreatePaymentIntent (env := env) test_ctx test_world in
  let tsCtx := {| APIKey := APIKey test_ctx; DeviceInfo := DeviceInfo test_ctx;
                  PstToken := PstToken test_ctx; Amount := Amount test_ctx;
                  Currency := Currency test_ctx;
                  PaymentIntentID := value created.1 |} in
  let captured := CapturePaymentIntent (env := env) tsCtx created.2 in
  value created.1 = "pi_123" ∧ err created.1 = None ∧ err captured.1 = None
  ∧ calls (log captured.2)
    = [PerformRequest_call
         (stripe.mkClient (Some (http.mkURL "https://api.stripe.com"))
                          "sk_test_123" false)
         "POST" "/v1/payment_intents"
         "amount=1999&capture_method=manual&currency=usd&description=Stripe+CLI+Test+Payment&payment_method_types%5B%5D=card_present";
       PerformRequest_call
         (stripe.mkClient (Some (http.mkURL "https://api.stripe.com"))
                          "sk_test_123" false)
         "POST" "/v1/payment_intents/pi_123/capture" ""].
Proof. vm_compute. repeat split. Qed.

(** A base URL that [url.Parse] rejects does take the opening exit: the
    model does not make that exit unreachable by construction. *)
Example malformed_base_url_exits_at_parse_check :
  let env := {| DefaultAPIBaseURL := "api.stripe.com";
                stripeTerminalReadersPath := "/v1/terminal/readers";
                rpcSessionPath := "/rpc"; stripeTerminalConnectionTokensPath := "/t";
                stripeCreatePaymentIntentPath := "/pi";
                stripeCapturePaymentIntentPath := "/pi/%s/capture";
                stripeTerminalRegisterPath := "/r";
                url_Parse := test_Parse; json_scan := test_scan [];
                platform := always (Responds 200 "") |} in
  line (DiscoverReaders (env := env) test_ctx test_world).1 = 64%nat
  ∧ events (DiscoverReaders (env := env) test_ctx) test_world = [].
Proof. vm_compute. split; reflexivity. Qed.

(** ** Non-200 answers *)

(** C1, at a platform that answers 402 to every call: the five operations
    that return a value return its zero value with a nil error, through the
    [return] of their status check; [CapturePaymentIntent] alone returns an
    error. *)
Theorem non_200_returns_nil_error :
  (DiscoverReaders (env := stub 402 card_declined_body) test_ctx test_world).1
  = Return 82 [] None
  ∧ (RegisterReader (env := stub 402 card_declined_body) "quick-brown-fox"
       test_ctx test_world).1
    = Return 262 "" None
  ∧ (StartNewRPCSession (env := stub 402 card_declined_body) test_ctx test_world).1
    = Return 130 "" None
  ∧ (GetNewConnectionToken (env := stub 402 card_declined_body) test_ctx test_world).1
    = Return 161 "" None
  ∧ (CreatePaymentIntent (env := stub 402 card_declined_body) test_ctx test_world).1
    = Return 201 "" None
  ∧ (CapturePaymentIntent (env := stub 402 card_declined_body) test_ctx test_world).1
    = Return 233 () (Some ErrCapturePaymentIntentFailed).
Proof. vm_compute. repeat split. Qed.

(** C5, at a platform that answers 402 to every call: each of the six
    operations acquires the body of the response (handle 0) and returns
    without closing it; at a platform that answers 200 each closes its body
    once. *)
Theorem body_left_open_on_non_200 :
  Forall (λ op,
      acquired (env := stub 402 card_declined_body)
        (invoke (env := stub 402 card_declined_body) op test_ctx) test_world
      = [0%nat]
      ∧ closes 0 (events (invoke (env := stub 402 card_declined_body)
                            op test_ctx) test_world) = 0%nat
      ∧ closes 0 (events (invoke (env := stub 200 payment_intent_body)
                            op test_ctx) test_world) = 1%nat)
    six_operations.
Proof. repeat constructor. Qed.

(** ** Redirects *)

(** C7 as stated fails: the session endpoint has moved and answers 307;
    the one call [StartNewRPCSession] makes to the zero [http.Client] puts
    two requests on the wire, and the operation returns the token of the
    second answer. *)
Lemma rpc_session_follows_redirect :
  length (calls (events (StartNewRPCSession (env := moved) test_ctx)
                   test_world)) = 1%nat
  ∧ (λ r, (http.Method r, http.URL_String (http.RequestURL r)))
      <$> wire_requests test_redirection moved_server
            (calls (events (StartNewRPCSession (env := moved) test_ctx)
                      test_world))
    = [("POST",
        "https://api.stripe.com/v1/terminal/connection_tokens/generate_pos_rpc_session");
       ("POST", "https://api.stripe.com/v2/rpc_session")]
  ∧ ¬ (length (wire_requests test_redirection moved_server
                 (calls (events (StartNewRPCSession (env := moved) test_ctx)
                           test_world))) ≤ 1)%nat
  ∧ (StartNewRPCSession (env := moved) test_ctx test_world).1
    = Return 140 "rpc_789" None.
Proof.
  assert (Hsent :
    length (wire_requests test_redirection moved_server
              (calls (events (StartNewRPCSession (env := moved) test_ctx)
                        test_world))) = 2%nat) by (vm_compute; reflexivity).
  split; [vm_compute; reflexivity|]. split; [vm_compute; reflexivity|].
  split; [rewrite Hsent; lia | vm_compute; reflexivity].
Qed.

(** A server that redirects for ever is given up after ten requests, with
    an error. *)
Example redirect_loop_stops :
  length (wire_requests test_redirection looping_server
            (calls (events (StartNewRPCSession
                              (env := over_the_wire test_redirection
                                        looping_server
                                        (stub 200 payment_intent_body))
                              test_ctx) test_world))) = 10%nat
  ∧ (StartNewRPCSession
       (env := over_the_wire test_redirection looping_server
                 (stub 200 payment_intent_body))
       test_ctx test_world).1
    = Return 130 "" (Some (LibraryError "stopped after 10 redirects")).
Proof. vm_compute. split; reflexivity. Qed.

(** ** Keys and slices as the decoder has them *)

(** A key written with a long s is the field [secret]; it comes after the
    plain key, so its value is the one kept. *)
Example long_s_key_is_folded :
  json.is_field "secret" long_s_secret = true
  ∧ json.is_field "sdk_rpc_session_token" kelvin_token = true
  ∧ json.is_field "id" long_s_secret = false
  ∧ value (GetNewConnectionToken
             (env := test_env folded_keys_table
                       (always (Responds 200 two_secrets_body)))
             test_ctx test_world).1 = "evil".
Proof. vm_compute. repeat split. Qed.

(** A slice cut back by one [data] member and regrown by the next takes up
    the elements left in its backing array: the reader [e] is stored over
    what is left of [b]. *)
Example regrown_slice_keeps_stale_fields :
  (λ r, (ID r, Label r)) <$> Data (json.store regrown_data json.zero)
  = [("d", "first"); ("e", "second")].
Proof. vm_compute. reflexivity. Qed.

(** ** Repeated IDs *)

(** C6 as stated fails: the platform answers 200 with a [data] array in
    which the same ID occurs twice, and [DiscoverReaders] returns both
    readers, with a nil error. *)
Lemma discover_readers_repeats_ids :
  answer (env := stub 200 same_reader_twice_body)
    (DiscoverReaders (env := stub 200 same_reader_twice_body) test_ctx) test_world
  = Some (Responds http.StatusOK same_reader_twice_body)
  ∧ err (DiscoverReaders (env := stub 200 same_reader_twice_body)
           test_ctx test_world).1 = None
  ∧ ID <$> value (DiscoverReaders (env := stub 200 same_reader_twice_body)
                    test_ctx test_world).1
    = ["tmr_1"; "tmr_1"]
  ∧ ¬ NoDup (ID <$> value (DiscoverReaders (env := stub 200 same_reader_twice_body)
                             test_ctx test_world).1).
Proof.
  assert (Hids : ID <$> value (DiscoverReaders (env := stub 200 same_reader_twice_body)
                                 test_ctx test_world).1
                 = ["tmr_1"; "tmr_1"]) by (vm_compute; reflexivity).
  split; [vm_compute; reflexivity|]. split; [vm_compute; reflexivity|].
  split; [exact Hids|].
  rewrite Hids. intros Hnodup. apply NoDup_cons in Hnodup as [Hnotin _].
  apply Hnotin. constructor.
Qed.

(** ** The theorems at concrete inputs *)

Lemma discover_readers_returns_data_witness :
  answer (env := stub 200 two_readers_body)
    (DiscoverReaders (env := stub 200 two_readers_body) test_ctx) test_world
  = Some (Responds http.StatusOK two_readers_body)
  ∧ value (DiscoverReaders (env := stub 200 two_readers_body) test_ctx test_world).1
    = (λ x, json.store x json.zero) <$> [reader_json "tmr_1"; reader_json "tmr_2"]
  ∧ NoDup (ID <$> value (DiscoverReaders (env := stub 200 two_readers_body)
                           test_ctx test_world).1).
Proof.
  assert (Hanswer :
    answer (env := stub 200 two_readers_body)
      (DiscoverReaders (env := stub 200 two_readers_body) test_ctx) test_world
    = Some (Responds http.StatusOK two_readers_body)) by (vm_compute; reflexivity).
  destruct (discover_readers_returns_data (env := stub 200 two_readers_body)
              test_ctx test_world two_readers_body Hanswer)
    as (_ & Hdata & Hwire & Hnodup).
  split; [exact Hanswer|]. split.
  - apply (Hwire [] [("has_more", json.Bool false)]);
      [vm_compute; reflexivity | constructor | repeat constructor].
  - apply Hnodup. rewrite <- Hdata. vm_compute.
    repeat constructor; rewrite ?list_elem_of_singleton; try discriminate;
      apply not_elem_of_nil.
Defined.

Lemma decode_error_discarded_witness :
  json_scan (Environment := stub 200 truncated_body) truncated_body = None
  ∧ Forall (λ op,
        err (invoke (env := stub 200 truncated_body) op test_ctx test_world).1 = None
        ∧ is_zero (value (invoke (env := stub 200 truncated_body)
                            op test_ctx test_world).1) = true)
      [OpDiscoverReaders; OpRegisterReader "quick-brown-fox";
       OpStartNewRPCSession; OpGetNewConnectionToken; OpCreatePaymentIntent].
Proof.
  assert (Hscan : json_scan (Environment := stub 200 truncated_body)
                    truncated_body = None) by (vm_compute; reflexivity).
  split; [exact Hscan|].
  pose proof (λ op Hop Hanswer,
    proj2 (decode_error_discarded (env := stub 200 truncated_body) op
             test_ctx test_world truncated_body Hop Hanswer Hscan)) as Hthm.
  repeat (constructor;
          [apply Hthm; [discriminate | vm_compute; reflexivity]|]).
  constructor.
Defined.

Lemma create_payment_intent_form_witness :
  ∃ client,
    head (calls (events (CreatePaymentIntent (env := stub 200 payment_intent_body)
                           test_ctx) test_world))
    = Some (PerformRequest_call client "POST" "/v1/payment_intents"
              "amount=1999&capture_method=manual&currency=usd&description=Stripe+CLI+Test+Payment&payment_method_types%5B%5D=card_present").
Proof.
  destruct (calls (events (CreatePaymentIntent (env := stub 200 payment_intent_body)
                             test_ctx) test_world)) as [|c l] eqn:Hcalls;
    [vm_compute in Hcalls; discriminate|].
  destruct (create_payment_intent_form (env := stub 200 payment_intent_body)
              test_ctx test_world c) as (client & form & -> & _ & Hencoded).
  { rewrite Hcalls. constructor. }
  exists client. cbn [head]. rewrite Hencoded. reflexivity.
Defined.

Lemma authentication_boundary_witness :
  (∃ request,
     calls (events (StartNewRPCSession (env := stub 200 payment_intent_body)
                      test_ctx) test_world)
     = [Do_call request]
     ∧ http.Header_Get "Authorization" (http.Header_ request)
       = "Bearer pst_test_456")
  ∧ Forall (λ op,
        ∃ method path params,
          calls (events (invoke (env := stub 200 payment_intent_body)
                           op test_ctx) test_world)
          = [PerformRequest_call
               (stripe.mkClient (Some (http.mkURL "https://api.stripe.com"))
                                "sk_test_123" false)
               method path params])
      client_operations.
Proof.
  assert (Hbase :
    url_Parse (Environment := stub 200 payment_intent_body)
      (DefaultAPIBaseURL (Environment := stub 200 payment_intent_body))
    = inl (http.mkURL "https://api.stripe.com")) by reflexivity.
  destruct (authentication_boundary (env := stub 200 payment_intent_body)
              test_ctx test_world) as (_ & _ & _ & Hclient & Hsession).
  split.
  - destruct (Hsession
                (http.mkURL "https://api.stripe.com")
                (http.mkURL
                   "https://api.stripe.com/v1/terminal/connection_tokens/generate_pos_rpc_session")
                Hbase) as (request & Hcalls & Hheader);
      [vm_compute; reflexivity|].
    exists request. split; [exact Hcalls|].
    unfold http.Header_Get. rewrite canonical_Authorization, Hheader. reflexivity.
  - pose proof (λ op, Hclient (http.mkURL "https://api.stripe.com") op Hbase)
      as Hop.
    repeat (constructor; [apply Hop; discriminate|]). constructor.
Defined.

Lemma capture_sentinel_witness :
  err (CapturePaymentIntent (env := stub 402 card_declined_body)
         test_ctx test_world).1 = Some ErrCapturePaymentIntentFailed
  ∧ err (CapturePaymentIntent (env := unreachable_platform)
           test_ctx test_world).1 = Some ErrCapturePaymentIntentFailed
  ∧ err (CapturePaymentIntent (env := stub 200 card_declined_body)
           test_ctx test_world).1 = None.
Proof.
  split; [|split].
  - apply (proj1 (proj2 (capture_sentinel (env := stub 402 card_declined_body)
                           test_ctx test_world)) 402 card_declined_body);
      [vm_compute; reflexivity | discriminate].
  - apply (proj1 (capture_sentinel (env := unreachable_platform)
                    test_ctx test_world)
                 (LibraryError "dial tcp: connection refused")).
    vm_compute; reflexivity.
  - apply (proj2 (proj2 (capture_sentinel (env := stub 200 card_declined_body)
                           test_ctx test_world))).
    exists card_declined_body. vm_compute; reflexivity.
Defined.

Lemma single_request_witness :
  HasMore (json.store first_page_json json.zero) = true
  ∧ length (calls (events (DiscoverReaders (env := stub 200 first_page_body)
                             test_ctx) test_world)) = 1%nat
  ∧ ID <$> value (DiscoverReaders (env := stub 200 first_page_body)
                    test_ctx test_world).1 = ["tmr_1"].
Proof.
  split; [reflexivity|].
  destruct (proj1 (proj2 (proj2 (single_request (env := stub 200 first_page_body)
                                   OpDiscoverReaders test_ctx test_world)))
                  first_page_body) as [Hone Hvalue];
    [vm_compute; reflexivity .. |].
  split; [exact Hone|]. rewrite Hvalue. vm_compute; reflexivity.
Defined.

Lemma parse_exits_unreachable_witness :
  url_Parse (Environment := stub 200 payment_intent_body) "https://api.stripe.com"
  = inl (http.mkURL "https://api.stripe.com")
  ∧ Forall (λ op,
        line (invoke (env := stub 200 payment_intent_body)
                op test_ctx test_world).1 ≠ parse_exit op)
      six_operations
  ∧ line (StartNewRPCSession (env := stub 200 payment_intent_body)
            test_ctx test_world).1 ≠ 121%nat.
Proof.
  assert (Hparse :
    url_Parse (Environment := stub 200 payment_intent_body) "https://api.stripe.com"
    = inl (http.mkURL "https://api.stripe.com")) by reflexivity.
  split; [exact Hparse|]. split.
  - pose proof (proj1 (proj2 (parse_exits_unreachable
                                (env := stub 200 payment_intent_body)
                                test_ctx test_world))
                      (http.mkURL "https://api.stripe.com") Hparse) as Hthm.
    repeat (constructor; [apply Hthm|]). constructor.
  - eapply (proj2 (proj2 (parse_exits_unreachable (env := stub 200 payment_intent_body)
                            test_ctx test_world)));
      [exact Hparse | vm_compute; reflexivity].
Defined.

(** ** The further theorems at concrete inputs *)

Lemma register_reader_request_witness :
  ∃ client,
    head (calls (events (RegisterReader (env := stub 200 payment_intent_body)
                           "fox&admin=1" test_ctx) test_world))
    = Some (PerformRequest_call client "POST" "/v1/terminal/readers"
              "registration_code=fox%26admin%3D1").
Proof.
  destruct (calls (events (RegisterReader (env := stub 200 payment_intent_body)
                             "fox&admin=1" test_ctx) test_world))
    as [|c l] eqn:Hcalls; [vm_compute in Hcalls; discriminate|].
  destruct (register_reader_request (env := stub 200 payment_intent_body)
              "fox&admin=1" test_ctx test_world c) as (client & -> & _ & _).
  { rewrite Hcalls. constructor. }
  exists client. reflexivity.
Defined.

Lemma rpc_session_request_witness :
  ∃ request,
    head (calls (events (StartNewRPCSession (env := stub 200 payment_intent_body)
                           test_ctx) test_world))
    = Some (Do_call request)
    ∧ http.Method request = "POST"
    ∧ http.URL_String (http.RequestURL request)
      = "https://api.stripe.com/v1/terminal/connection_tokens/generate_pos_rpc_session"
    ∧ http.Header_Get "Content-Type" (http.Header_ request)
      = "application/x-www-form-urlencoded"
    ∧ size (http.Header_ request) = 2%nat.
Proof.
  destruct (calls (events (StartNewRPCSession (env := stub 200 payment_intent_body)
                             test_ctx) test_world)) as [|c l] eqn:Hcalls;
    [vm_compute in Hcalls; discriminate|].
  destruct (rpc_session_request (env := stub 200 payment_intent_body)
              test_ctx test_world c) as (u & u' & Hu & Hu' & ->).
  { rewrite Hcalls. constructor. }
  vm_compute in Hu. injection Hu as <-.
  vm_compute in Hu'. injection Hu' as <-.
  eexists. split; [reflexivity|]. repeat split; vm_compute; reflexivity.
Defined.

Lemma capture_request_witness :
  ∃ client,
    head (calls (events (CapturePaymentIntent (env := stub 200 payment_intent_body)
                           test_ctx) test_world))
    = Some (PerformRequest_call client "POST"
              "/v1/payment_intents/pi_123/capture" "").
Proof.
  destruct (calls (events (CapturePaymentIntent (env := stub 200 payment_intent_body)
                             test_ctx) test_world)) as [|c l] eqn:Hcalls;
    [vm_compute in Hcalls; discriminate|].
  destruct (capture_request (env := stub 200 payment_intent_body)
              "/v1/payment_intents/" "/capture" test_ctx test_world c)
    as (client & -> & _).
  - reflexivity.
  - compute_done.
  - compute_done.
  - rewrite Hcalls. constructor.
  - exists client. reflexivity.
Defined.

Lemma transport_error_propagated_witness :
  err (invoke (env := unreachable_platform) OpGetNewConnectionToken
         test_ctx test_world).1
  = Some (LibraryError "dial tcp: connection refused")
  ∧ length (events (invoke (env := unreachable_platform) OpGetNewConnectionToken
                      test_ctx) test_world) = 1%nat.
Proof.
  destruct (transport_error_propagated (env := unreachable_platform)
              OpGetNewConnectionToken test_ctx test_world
              (LibraryError "dial tcp: connection refused"))
    as (Herr & _ & c & Hevents); [vm_compute; reflexivity|].
  split; [exact Herr|]. now rewrite Hevents.
Defined.

Lemma value_only_after_200_witness :
  line (invoke (env := stub 200 two_readers_body) OpDiscoverReaders
          test_ctx test_world).1 = 92%nat
  ∧ err (invoke (env := stub 200 two_readers_body) OpDiscoverReaders
           test_ctx test_world).1 = None.
Proof.
  destruct (value_only_after_200 (env := stub 200 two_readers_body)
              OpDiscoverReaders test_ctx test_world) as (Hline & Herr & _);
    [vm_compute; reflexivity|].
  split; assumption.
Defined.

(** Two invocations in a row, from the empty log: the bodies with handles 0
    and 2 are acquired. *)
Lemma closes_stay_single_witness :
  (closes 0 (log (invoke (env := stub 200 payment_intent_body)
                    OpCapturePaymentIntent test_ctx
                    (invoke (env := stub 200 payment_intent_body)
                       OpCreatePaymentIntent test_ctx test_world).2).2)
   ≤ 1)%nat
  ∧ (closes 2 (log (invoke (env := stub 200 payment_intent_body)
                      OpCapturePaymentIntent test_ctx
                      (invoke (env := stub 200 payment_intent_body)
                         OpCreatePaymentIntent test_ctx test_world).2).2)
     ≤ 1)%nat.
Proof.
  pose proof (closes_stay_single (env := stub 200 payment_intent_body)
                OpCapturePaymentIntent test_ctx
                (invoke (env := stub 200 payment_intent_body)
                   OpCreatePaymentIntent test_ctx test_world).2
                (closes_stay_single (env := stub 200 payment_intent_body)
                   OpCreatePaymentIntent test_ctx test_world
                   (λ h, conj (Nat.le_0_l 1) (λ Hh : 0%nat ≠ 0%nat, False_ind _ (Hh eq_refl)))))
    as Htwice.
  split; [exact (proj1 (Htwice 0%nat)) | exact (proj1 (Htwice 2%nat))].
Defined.

Lemma decoded_field_returned_witness :
  (value (invoke (env := stub 200 payment_intent_body) OpCreatePaymentIntent
            test_ctx test_world).1 = Text "pi_123"
   ∧ err (invoke (env := stub 200 payment_intent_body) OpCreatePaymentIntent
            test_ctx test_world).1 = None)
  ∧ (value (invoke (env := test_env folded_keys_table
                             (always (Responds 200 session_token_body)))
              OpStartNewRPCSession test_ctx test_world).1 = Text "kelvin"
     ∧ err (invoke (env := test_env folded_keys_table
                             (always (Responds 200 session_token_body)))
              OpStartNewRPCSession test_ctx test_world).1 = None).
Proof.
  split.
  - apply (decoded_field_returned (env := stub 200 payment_intent_body)
             OpCreatePaymentIntent "id" test_ctx test_world payment_intent_body
             "id" "pi_123" [] []);
      first [vm_compute; reflexivity | constructor].
  - apply (decoded_field_returned
             (env := test_env folded_keys_table
                       (always (Responds 200 session_token_body)))
             OpStartNewRPCSession "sdk_rpc_session_token" test_ctx test_world
             session_token_body kelvin_token "kelvin" [] []);
      first [vm_compute; reflexivity | constructor].
Defined.

Lemma unreadable_field_returns_empty_witness :
  value (invoke (env := stub 200 card_declined_body) OpCreatePaymentIntent
           test_ctx test_world).1 = Text ""
  ∧ err (invoke (env := stub 200 card_declined_body) OpCreatePaymentIntent
           test_ctx test_world).1 = None.
Proof.
  apply (unreadable_field_returns_empty (env := stub 200 card_declined_body)
           OpCreatePaymentIntent "id" test_ctx test_world card_declined_body
           (json.Object [("error",
                          json.Object [("code", json.Str "card_declined")])]));
    [reflexivity | vm_compute; reflexivity | vm_compute; reflexivity |].
  intros ms [= <-]. repeat constructor. intros Hfield. vm_compute in Hfield.
  discriminate.
Defined.

Lemma create_then_capture_witness :
  ∃ client,
    head (calls (events
            (CapturePaymentIntent (env := stub 200 payment_intent_body)
               {| APIKey := APIKey test_ctx; DeviceInfo := DeviceInfo test_ctx;
                  PstToken := PstToken test_ctx; Amount := Amount test_ctx;
                  Currency := Currency test_ctx;
                  PaymentIntentID :=
                    value (CreatePaymentIntent
                             (env := stub 200 payment_intent_body)
                             test_ctx test_world).1 |})
            (CreatePaymentIntent (env := stub 200 payment_intent_body)
               test_ctx test_world).2))
    = Some (PerformRequest_call client "POST"
              "/v1/payment_intents/pi_123/capture" "").
Proof.
  destruct (calls (events
              (CapturePaymentIntent (env := stub 200 payment_intent_body)
                 {| APIKey := APIKey test_ctx; DeviceInfo := DeviceInfo test_ctx;
                    PstToken := PstToken test_ctx; Amount := Amount test_ctx;
                    Currency := Currency test_ctx;
                    PaymentIntentID :=
                      value (CreatePaymentIntent
                               (env := stub 200 payment_intent_body)
                               test_ctx test_world).1 |})
              (CreatePaymentIntent (env := stub 200 payment_intent_body)
                 test_ctx test_world).2)) as [|c l] eqn:Hcalls;
    [vm_compute in Hcalls; discriminate|].
  destruct (create_then_capture (env := stub 200 payment_intent_body)
              "/v1/payment_intents/" "/capture" test_ctx test_world
              payment_intent_body "id" "pi_123" [] [] c) as (client & -> & _);
    [ reflexivity | compute_done | compute_done | vm_compute; reflexivity
    | vm_compute; reflexivity | vm_compute; reflexivity | constructor
    | constructor | rewrite Hcalls; constructor | ].
  exists client. reflexivity.
Defined.
